(** * threeML: polynomial background fits and the VO catalog wrapper

    A shallow embedding of
      - [threeML/utils/time_series/polynomial.py]
        (class [Polynomial], [polyfit], [unbinned_polyfit]) and
      - [threeML/catalogs/VirtualObservatoryCatalog.py] ([query_sources]).

    Conventions of the embedding.
      - A Python [float] (and an [int] used as a number) is a real number:
        arithmetic is exact, rounding is not modelled.  Entries of the numpy
        input arrays of the fit drivers can also be NaN, see [float].
      - A Python call either returns or raises: [outcome].
      - astromodels, numpy and the other threeML modules the fit drivers talk
        to are not part of these two files; every call into them is an
        explicit [call], answered by a handler that is a parameter of the
        development and recorded in a log. *)

From Stdlib Require Import String Ascii Reals Lra ZArith Lia Bool List.
From Equations Require Import Equations.
Import ListNotations.

(** ** Python outcomes *)

Inductive exn : Type :=
| IndexError
| AttributeError
| ValueError
| NotImplementedError
| ExternalError (what : string).

Inductive outcome (A : Type) : Type :=
| Returned (a : A)
| Raised (e : exn).

Arguments Returned {A} a.
Arguments Raised {A} e.

Class Monad (M : Type -> Type) : Type := {
  ret : forall A, A -> M A;
  bind : forall A B, M A -> (A -> M B) -> M B
}.

Arguments ret {M _ A} _.
Arguments bind {M _ A B} _ _.

Declare Scope py_scope.
Delimit Scope py_scope with py.
Notation "x <- m ;; k" := (bind m (fun x => k))
  (at level 61, m at next level, right associativity) : py_scope.
Notation "m ;; k" := (bind m (fun _ => k))
  (at level 61, right associativity) : py_scope.
Open Scope py_scope.

#[export] Instance outcome_monad : Monad outcome := {
  ret := fun A a => Returned a;
  bind := fun A B m k =>
    match m with
    | Returned a => k a
    | Raised e => Raised e
    end
}.

(** ** Python sequences *)

Module Py.

(** [range(lo, hi)] *)
Definition range (lo hi : Z) : list Z :=
  map (fun k => (lo + Z.of_nat k)%Z) (seq 0 (Z.to_nat (hi - lo))).

(** [l[i]] on a list or tuple: negative indices count from the end, an
    index outside [-len, len) raises IndexError. *)
Definition getitem {A : Type} (l : list A) (i : Z) : outcome A :=
  let n := Z.of_nat (length l) in
  let j := if (i <? 0)%Z then (i + n)%Z else i in
  if ((0 <=? j) && (j <? n))%Z then
    match nth_error l (Z.to_nat j) with
    | Some a => Returned a
    | None => Raised IndexError
    end
  else Raised IndexError.

(** [[f(i) for i in l]]: elements are computed left to right, the first
    exception ends the comprehension. *)
Fixpoint comprehension {A B : Type} (f : A -> outcome B) (l : list A)
  : outcome (list B) :=
  match l with
  | [] => Returned []
  | a :: l' =>
      b <- f a ;;
      bs <- comprehension f l' ;;
      ret (b :: bs)
  end.

(** [[v] * n]: empty for [n <= 0]. *)
Definition replicate {A : Type} (v : A) (n : Z) : list A :=
  repeat v (Z.to_nat n).

End Py.

(** ** numpy arrays *)

(** An entry of an input array of the fit drivers: a number or NaN. *)
Inductive float : Type :=
| Fin (r : R)
| NaN.

(** One- and two-dimensional arrays of reals. *)
Definition vector := list R.
Definition matrix := list (list R).

Module Np.

Definition sum (v : vector) : R := fold_right Rplus 0%R v.

(** [np.zeros((n, m))] *)
Definition zeros (n m : Z) : matrix :=
  repeat (repeat 0%R (Z.to_nat m)) (Z.to_nat n).

(** Elementwise operations on arrays of one shape. *)
Fixpoint map2 (f : R -> R -> R) (u v : vector) : vector :=
  match u, v with
  | a :: u', b :: v' => f a b :: map2 f u' v'
  | _, _ => []
  end.

Definition ncols (m : matrix) : nat :=
  match m with
  | [] => 0
  | r :: _ => length r
  end.

Definition rectangular (m : matrix) : bool :=
  forallb (fun r => Nat.eqb (length r) (ncols m)) m.

Definition column (m : matrix) (j : nat) : vector :=
  map (fun r => nth j r 0%R) m.

(** [u.dot(v)] for two one-dimensional arrays. *)
Definition dot_vv (u v : vector) : outcome R :=
  if Nat.eqb (length u) (length v)
  then Returned (sum (map2 Rmult u v))
  else Raised ValueError.

(** [u.dot(m)] for a one-dimensional [u] and a two-dimensional [m]:
    entry [j] of the result is the sum over [i] of [u[i] * m[i][j]]. *)
Definition dot_vm (u : vector) (m : matrix) : outcome vector :=
  if Nat.eqb (length u) (length m) && rectangular m
  then Returned (map (fun j => sum (map2 Rmult u (column m j)))
                     (seq 0 (ncols m)))
  else Raised ValueError.

(** [np.isnan], one entry *)
Definition isnan (v : float) : bool :=
  match v with
  | NaN => true
  | Fin _ => false
  end.

(** [v > 0], one entry: a comparison with NaN is False. *)
Definition positive (v : float) : bool :=
  match v with
  | NaN => false
  | Fin r => if Rlt_dec 0 r then true else false
  end.

(** [mask.sum()] of a boolean array *)
Definition count_true (mask : list bool) : nat :=
  length (filter (fun b => b) mask).

(** [a[mask]] with a boolean array: the mask must have the length of
    [a], otherwise numpy raises IndexError. *)
Fixpoint keep {A : Type} (a : list A) (mask : list bool) : list A :=
  match a, mask with
  | v :: a', b :: mask' => if b then v :: keep a' mask' else keep a' mask'
  | _, _ => []
  end.

Definition select {A : Type} (a : list A) (mask : list bool)
  : outcome (list A) :=
  if Nat.eqb (length a) (length mask)
  then Returned (keep a mask)
  else Raised IndexError.

(** [a / 2] on one entry *)
Definition half (v : float) : float :=
  match v with
  | NaN => NaN
  | Fin r => Fin (r / 2)
  end.

End Np.

(** ** class Polynomial *)

#[local] Set Warnings "-register-all".

(** The attributes of a [Polynomial] object.  [_integral_polynomial] is set
    only by the constructor's [if not is_integral] branch and by the
    coefficient setter: [None] is an object without that attribute.
    [_i_plus_1] holds the integers 1 .. degree+1 (stored as floats). *)
Inductive Polynomial : Type := mkPolynomial {
  _coefficients : list R;
  _degree : Z;
  _i_plus_1 : list Z;
  _cov_matrix : matrix;
  _integral_polynomial : option Polynomial
}.

Definition with_coefficients (p : Polynomial) (val : list R) : Polynomial :=
  mkPolynomial val (_degree p) (_i_plus_1 p) (_cov_matrix p)
    (_integral_polynomial p).

Definition with_cov_matrix (p : Polynomial) (m : matrix) : Polynomial :=
  mkPolynomial (_coefficients p) (_degree p) (_i_plus_1 p) m
    (_integral_polynomial p).

Definition with_integral_polynomial (p q : Polynomial) : Polynomial :=
  mkPolynomial (_coefficients p) (_degree p) (_i_plus_1 p) (_cov_matrix p)
    (Some q).

Module Poly.

(** The list that both [__init__] and [__set_coefficient] build:
    [[0]] extended by [coefficients[i - 1] / float(i)] for
    [i in range(1, degree + 1 + 1)]. *)
Definition integral_coeff (coefficients : list R) (degree : Z)
  : outcome (list R) :=
  ext <- Py.comprehension
           (fun i => c <- Py.getitem coefficients (i - 1) ;;
                     ret (c / IZR i)%R)
           (Py.range 1 (degree + 1 + 1)) ;;
  ret (0%R :: ext).

Definition init_measure (is_integral : bool) : nat :=
  if is_integral then 0 else 1.

(** [Polynomial.__init__(coefficients, is_integral)].  The constructor calls
    itself for the integral polynomial; the call passes [is_integral=True],
    which is what makes the recursion stop. *)
Equations __init__ (coefficients : list R) (is_integral : bool)
  : outcome Polynomial by wf (init_measure is_integral) lt :=
  __init__ coefficients true :=
    let degree := (Z.of_nat (length coefficients) - 1)%Z in
    Returned (mkPolynomial coefficients degree
                (Py.range 1 (degree + 1 + 1))
                (Np.zeros (degree + 1) (degree + 1))
                None);
  __init__ coefficients false
    with integral_coeff coefficients (Z.of_nat (length coefficients) - 1) := {
    | Raised e := Raised e
    | Returned ic with __init__ ic true := {
      | Raised e := Raised e
      | Returned q :=
          let degree := (Z.of_nat (length coefficients) - 1)%Z in
          Returned (mkPolynomial coefficients degree
                      (Py.range 1 (degree + 1 + 1))
                      (Np.zeros (degree + 1) (degree + 1))
                      (Some q)) } }.

(** [Polynomial.from_previous_fit(coefficients, covariance)] *)
Definition from_previous_fit (coefficients : list R) (covariance : matrix)
  : outcome Polynomial :=
  poly <- __init__ coefficients false ;;
  ret (with_cov_matrix poly covariance).

(** property [degree] *)
Definition degree (self : Polynomial) : Z := _degree self.

(** property [error]: [np.sqrt(self._cov_matrix.diagonal())] *)
Definition error (self : Polynomial) : vector :=
  map (fun i => sqrt (nth i (nth i (_cov_matrix self) []) 0%R))
      (seq 0 (Nat.min (length (_cov_matrix self))
                      (Np.ncols (_cov_matrix self)))).

(** getter of the property [coefficients] *)
Definition __get_coefficient (self : Polynomial) : list R :=
  _coefficients self.

(** setter of the property [coefficients].  The object is mutated in
    place: the result is the object after the call together with how the
    call ended.  [_coefficients] is assigned before the integral
    coefficients are computed, so it stays assigned when they raise. *)
Definition __set_coefficient (self : Polynomial) (val : list R)
  : Polynomial * outcome unit :=
  let self1 := with_coefficients self val in
  match integral_coeff (_coefficients self1) (_degree self1) with
  | Raised e => (self1, Raised e)
  | Returned ic =>
      match __init__ ic true with
      | Raised e => (self1, Raised e)
      | Returned q => (with_integral_polynomial self1 q, Returned tt)
      end
  end.

(** [__call__]: the loop over [self._coefficients[::-1]]. *)
Definition __call__ (self : Polynomial) (x : R) : R :=
  fold_left (fun result coefficient => (result * x + coefficient)%R)
            (rev (_coefficients self)) 0%R.

Definition set_covariace_matrix (self : Polynomial) (m : matrix)
  : Polynomial :=
  with_cov_matrix self m.

Definition covariance_matrix (self : Polynomial) : matrix :=
  _cov_matrix self.

(** [integral]: reading [self._integral_polynomial] on an object that was
    built with [is_integral=True] raises AttributeError. *)
Definition integral (self : Polynomial) (xmin xmax : R) : outcome R :=
  match _integral_polynomial self with
  | None => Raised AttributeError
  | Some ip => Returned (__call__ ip xmax - __call__ ip xmin)%R
  end.

(** [_eval_basis]: [(1.0 / self._i_plus_1) * np.power(x, self._i_plus_1)],
    both factors elementwise over the array 1 .. degree+1. *)
Definition _eval_basis (self : Polynomial) (x : R) : vector :=
  Np.map2 Rmult
    (map (fun k => (1 / IZR k)%R) (_i_plus_1 self))
    (map (fun k => (x ^ Z.to_nat k)%R) (_i_plus_1 self)).

Definition integral_error (self : Polynomial) (xmin xmax : R) : outcome R :=
  let c := Np.map2 Rminus (_eval_basis self xmax) (_eval_basis self xmin) in
  tmp <- Np.dot_vm c (_cov_matrix self) ;;
  err2 <- Np.dot_vv tmp c ;;
  ret (sqrt err2).

(** Number of integral polynomials nested below an object. *)
Fixpoint nesting (p : Polynomial) : nat :=
  match p with
  | mkPolynomial _ _ _ _ None => 0
  | mkPolynomial _ _ _ _ (Some q) => S (nesting q)
  end.

End Poly.

(** The object [__init__] leaves behind when given [is_integral=True]. *)
Definition plain (coefficients : list R) : Polynomial :=
  let degree := (Z.of_nat (length coefficients) - 1)%Z in
  mkPolynomial coefficients degree (Py.range 1 (degree + 1 + 1))
    (Np.zeros (degree + 1) (degree + 1)) None.

(** The objects a program can hold: built by the constructor, then changed
    through [set_covariace_matrix] and the coefficient setter (whether the
    setter returns or raises). *)
Inductive constructed : Polynomial -> Prop :=
| constructed_init (c : list R) (is_integral : bool) (p : Polynomial) :
    Poly.__init__ c is_integral = Returned p -> constructed p
| constructed_set_cov (p : Polynomial) (m : matrix) :
    constructed p -> constructed (Poly.set_covariace_matrix p m)
| constructed_set_coeff (p : Polynomial) (v : list R) :
    constructed p -> constructed (fst (Poly.__set_coefficient p v)).

(** ** Reference definitions, in the words of the specification *)

Module Spec.

(** Horner's scheme: c0 + x (c1 + x (c2 + ...)). *)
Fixpoint horner (c : list R) (x : R) : R :=
  match c with
  | [] => 0
  | c0 :: c' => c0 + x * horner c' x
  end%R.

(** The polynomial as a sum of monomials, [c] holding the coefficient of
    [x^(first + k)] at position [k]. *)
Fixpoint monomials (first : nat) (c : list R) (x : R) : R :=
  match c with
  | [] => 0
  | c0 :: c' => c0 * x ^ first + monomials (S first) c' x
  end%R.

(** [F c i]: the coefficient at power [i] of the antiderivative with
    constant term 0: [c[i-1] / i] for [1 <= i <= n+1]. *)
Definition F_coefficient (c : list R) (i : nat) : R :=
  match i with
  | O => 0
  | S j => nth j c 0 / INR i
  end%R.

(** The antiderivative evaluated at [x]: powers 0 .. n+1 for
    coefficients c_0 .. c_n. *)
Definition F (c : list R) (x : R) : R :=
  Np.sum (map (fun i => F_coefficient c i * x ^ i)%R
              (seq 0 (S (length c)))).

(** The coefficient list of [F], powers 0 .. n+1. *)
Definition F_coefficients (c : list R) : list R :=
  map (F_coefficient c) (seq 0 (S (length c))).

(** The basis vector of the error propagation:
    [c_i = (xmax^(i+1) - xmin^(i+1)) / (i+1)] for i in 0..degree. *)
Definition basis (degree : Z) (xmin xmax : R) : vector :=
  map (fun i => ((xmax ^ S i - xmin ^ S i) / INR (S i))%R)
      (seq 0 (Z.to_nat (degree + 1))).

(** The quadratic form [c^T S c], the sum over i and j of
    [c_i * S_ij * c_j]. *)
Definition quadratic_form (c : vector) (S : matrix) : R :=
  Np.sum (map (fun i =>
            Np.sum (map (fun j =>
                      nth i c 0 * nth j (nth i S []) 0 * nth j c 0)%R
                    (seq 0 (length c))))
          (seq 0 (length c))).

(** A covariance matrix of shape n x n. *)
Definition square (n : nat) (S : matrix) : Prop :=
  length S = n /\ Forall (fun r => length r = n) S.

(** An array with the entry at index [i] taken out. *)
Definition remove_at {A : Type} (i : nat) (l : list A) : list A :=
  firstn i l ++ skipn (S i) l.

End Spec.


(** ** The collaborators of the fit drivers *)

(** [_grade_model_lookup = (Line, Line, Quadratic, Cubic, Quadratic)] *)
Inductive shape_family : Type := Line | Quadratic | Cubic.

Definition _grade_model_lookup : list shape_family :=
  [Line; Line; Quadratic; Cubic; Quadratic].

(** A free parameter of the model, named by its key in
    [model.free_parameters]. *)
Definition param : Type := string.
Bind Scope string_scope with param.

Inductive prior : Type :=
| Log_normal (mu sigma : float)
| Gaussian (mu sigma : float).

(** Every call the two fit drivers make into astromodels and into the other
    threeML modules, with the arguments the drivers pass. *)
Inductive call : Type :=
| NewShape (family : shape_family)
| NewPointSource (name : string)
| NewModel
| NewXYLike (x y exposure : list float)
| NewEventObservation (events : list float) (exposure t_start t_stop : float)
| NewUnbinnedPoissonLike
| FreeParameters
| SetBounds (v : param) (lo hi : option float)
| SetValue (v : param) (value : float)
| SetPrior (v : param) (pr : prior)
| GetValue (v : param)
| SetShapeB (value : float)
| FixShapeB
| NewJointLikelihood
| SetMinimizer (name : string)
| NewGlobalMinimization (name : string)
| NewLocalMinimization (name : string)
| ShapeA
| GridSetup (grid_param : param) (grid : list float)
| SetGridMinimizer
| Fit (quiet : bool)
| ResultsCovarianceMatrix
| GetLogLike
| NewBayesianAnalysis
| SetSampler (name : string)
| SamplerSetup (n_iterations n_burn_in n_walkers : Z)
| Sample (quiet : bool)
| RestoreMedianFit
| EstimateCovarianceMatrix.

(** What a call gives back when it returns. *)
Definition reply (c : call) : Type :=
  match c with
  | FreeParameters => list param
  | GetValue _ => R
  | ShapeA => param
  | ResultsCovarianceMatrix => matrix
  | GetLogLike => R
  | EstimateCovarianceMatrix => matrix
  | _ => unit
  end.

(** The environment of a fit: the state of the external objects (model,
    likelihood, minimizer, sampler), how each call changes it and whether
    the call returns or raises, and the numpy functions the drivers use on
    their data. *)
Record Env : Type := {
  World : Type;
  handler : forall c : call, World -> World * outcome (reply c);
  np_mean_ratio : list float -> list float -> float;
  np_log : float -> float;
  np_max : list float -> float;
  np_logspace : R -> R -> Z -> list float
}.

Section Drivers.

Variable E : Env.

(** The state threaded through a driver: the external objects and the log
    of the calls made so far. *)
Record state : Type := mkState {
  world : World E;
  log : list call
}.

Definition M (A : Type) : Type := state -> state * outcome A.

#[export] Instance M_monad : Monad M := {
  ret := fun A a s => (s, Returned a);
  bind := fun A B m k s =>
    match m s with
    | (s', Returned a) => k a s'
    | (s', Raised e) => (s', Raised e)
    end
}.

(** A computation of the source file itself, which touches no external
    object. *)
Definition lift {A : Type} (o : outcome A) : M A := fun s => (s, o).

(** One call into a collaborator. *)
Definition perform (c : call) : M (reply c) :=
  fun s =>
    let (w, r) := handler E c (world s) in
    (mkState w (log s ++ [c]), r).

(** [try: body / except: handler_]: the bare [except] catches every
    exception; the handler runs in the state the body left. *)
Definition try_except {A : Type} (body : M A) (handler_ : M A) : M A :=
  fun s =>
    match body s with
    | (s', Returned a) => (s', Returned a)
    | (s', Raised _) => handler_ s'
    end.

(** [for i, v in enumerate(l): body(i, v)], counting from [i]. *)
Fixpoint for_enumerate {A : Type} (i : nat) (l : list A)
         (body : nat -> A -> M unit) : M unit :=
  match l with
  | [] => ret tt
  | a :: l' => body i a ;; for_enumerate (S i) l' body
  end.

(** [[f(v) for v in l]] with calls in [f]. *)
Fixpoint for_list {A B : Type} (f : A -> M B) (l : list A) : M (list B) :=
  match l with
  | [] => ret []
  | a :: l' => b <- f a ;; bs <- for_list f l' ;; ret (b :: bs)
  end.

(** The zero polynomial both drivers give back when there is nothing to
    fit: [Polynomial([0] * (grade + 1))]. *)
Definition zero_polynomial (grade : Z) : M Polynomial :=
  lift (Poly.__init__ (Py.replicate 0%R (grade + 1)) false).

(** [if grade == 0: shape.b = 0; shape.b.fix = True] *)
Definition fix_linear_term (grade : Z) : M unit :=
  if (grade =? 0)%Z
  then perform (SetShapeB (Fin 0)) ;; perform FixShapeB
  else ret tt.

(** [coeff = [v.value for _, v in model.free_parameters.items()]] *)
Definition read_coefficients : M (list R) :=
  params <- perform FreeParameters ;;
  for_list (fun v => perform (GetValue v)) params.

(** The two nested [try] blocks of [polyfit] (lines 247-261): the second
    [except] does nothing. *)
Definition fit_with_retry : M unit :=
  try_except (perform (Fit true))
             (try_except (perform (Fit true)) (ret tt)).

(** [polyfit], the [if not bayes] branch up to the fit (lines 216-243). *)
Definition polyfit_mle_setup (grade : Z) (avg : float) : M unit :=
  params <- perform FreeParameters ;;
  for_enumerate 0 params
    (fun i v =>
       if Nat.eqb i 0
       then perform (SetBounds v (Some (Fin 0)) None) ;;
            perform (SetValue v avg)
       else perform (SetValue v (Fin 0))) ;;
  fix_linear_term grade ;;
  perform NewJointLikelihood ;;
  perform (SetMinimizer "minuit").

(** [polyfit], the [if not bayes] branch after the fit (lines 263-271). *)
Definition polyfit_mle_collect : M (Polynomial * R) :=
  coeff <- read_coefficients ;;
  final_polynomial <- lift (Poly.__init__ coeff false) ;;
  cov <- perform ResultsCovarianceMatrix ;;
  let final_polynomial := Poly.set_covariace_matrix final_polynomial cov in
  min_log_likelihood <- perform GetLogLike ;;
  ret (final_polynomial, min_log_likelihood).

Definition polyfit_mle (grade : Z) (avg : float) : M (Polynomial * R) :=
  polyfit_mle_setup grade avg ;;
  fit_with_retry ;;
  polyfit_mle_collect.

(** [polyfit], the [else] branch (lines 273-318). *)
Definition polyfit_bayes (grade : Z) (avg : float) : M (Polynomial * R) :=
  params <- perform FreeParameters ;;
  for_enumerate 0 params
    (fun i v =>
       if Nat.eqb i 0
       then perform (SetBounds v (Some (Fin 0)) None) ;;
            perform (SetPrior v
                       (Log_normal
                          (np_log E avg)
                          (np_max E [np_log E (Np.half avg); Fin 1]))) ;;
            perform (SetValue v (Fin 1))
       else perform (SetPrior v (Gaussian (Fin 0) (Fin 2))) ;;
            perform (SetValue v (Fin (1 / 100)))) ;;
  fix_linear_term grade ;;
  perform NewBayesianAnalysis ;;
  perform (SetSampler "emcee") ;;
  perform (SamplerSetup 500 200 20) ;;
  perform (Sample true) ;;
  perform RestoreMedianFit ;;
  coeff <- read_coefficients ;;
  final_polynomial <- lift (Poly.__init__ coeff false) ;;
  cov <- perform EstimateCovarianceMatrix ;;
  let final_polynomial := Poly.set_covariace_matrix final_polynomial cov in
  min_log_likelihood <- perform GetLogLike ;;
  ret (final_polynomial, min_log_likelihood).

(** [polyfit(x, y, grade, exposure, bayes)] *)
Definition polyfit (x y : list float) (grade : Z) (exposure : list float)
           (bayes : bool) : M (Polynomial * R) :=
  let nan_mask := map Np.isnan y in
  y' <- lift (Np.select y (map negb nan_mask)) ;;
  x' <- lift (Np.select x (map negb nan_mask)) ;;
  exposure' <- lift (Np.select exposure (map negb nan_mask)) ;;
  let non_zero_mask := map Np.positive y' in
  let n_non_zero := Np.count_true non_zero_mask in
  if Nat.eqb n_non_zero 0 then
    zero <- zero_polynomial grade ;;
    ret (zero, 0%R)
  else
    family <- lift (Py.getitem _grade_model_lookup grade) ;;
    perform (NewShape family) ;;
    perform (NewPointSource "_dummy") ;;
    perform NewModel ;;
    let avg := np_mean_ratio E y' exposure' in
    perform (NewXYLike x' y' exposure') ;;
    fitted <- (if negb bayes
               then polyfit_mle grade avg
               else polyfit_bayes grade avg) ;;
    let (final_polynomial, min_log_likelihood) := fitted in
    ret (final_polynomial, (- min_log_likelihood)%R).

(** [unbinned_polyfit], the [if not bayes] branch (lines 354-417).  The
    [return] inside the second [except] leaves the function: the two
    [try] blocks yield whether a fit went through, and the code after
    them runs only in that case. *)
Definition unbinned_polyfit_mle (grade : Z) : M (Polynomial * R) :=
  params <- perform FreeParameters ;;
  for_enumerate 0 params
    (fun i v =>
       if Nat.eqb i 0
       then perform (SetBounds v (Some (Fin 0)) None) ;;
            perform (SetValue v (Fin 10))
       else perform (SetValue v (Fin 0))) ;;
  fix_linear_term grade ;;
  perform NewJointLikelihood ;;
  perform (NewGlobalMinimization "grid") ;;
  perform (NewLocalMinimization "minuit") ;;
  a <- perform ShapeA ;;
  perform (GridSetup a (np_logspace E 0 3 3)) ;;
  perform SetGridMinimizer ;;
  fitted <- try_except (perform (Fit true) ;; ret true)
              (try_except (perform (Fit true) ;; ret true) (ret false)) ;;
  if fitted : bool then
    coeff <- read_coefficients ;;
    final_polynomial <- lift (Poly.__init__ coeff false) ;;
    cov <- perform ResultsCovarianceMatrix ;;
    let final_polynomial :=
      Poly.set_covariace_matrix final_polynomial cov in
    min_log_likelihood <- perform GetLogLike ;;
    ret (final_polynomial, (- min_log_likelihood)%R)
  else
    zero <- zero_polynomial grade ;;
    ret (zero, 0%R).

(** [unbinned_polyfit], the [else] branch (lines 419-464). *)
Definition unbinned_polyfit_bayes (grade : Z) : M (Polynomial * R) :=
  params <- perform FreeParameters ;;
  for_enumerate 0 params
    (fun i v =>
       if Nat.eqb i 0
       then perform (SetBounds v (Some (Fin 0)) None) ;;
            perform (SetPrior v
                       (Log_normal (np_log E (Fin 5)) (np_log E (Fin 5)))) ;;
            perform (SetValue v (Fin 1))
       else perform (SetPrior v (Gaussian (Fin 0) (Fin (1 / 2)))) ;;
            perform (SetValue v (Fin (1 / 10)))) ;;
  fix_linear_term grade ;;
  perform NewBayesianAnalysis ;;
  perform (SetSampler "emcee") ;;
  perform (SamplerSetup 500 200 20) ;;
  perform (Sample true) ;;
  perform RestoreMedianFit ;;
  coeff <- read_coefficients ;;
  final_polynomial <- lift (Poly.__init__ coeff false) ;;
  cov <- perform EstimateCovarianceMatrix ;;
  let final_polynomial := Poly.set_covariace_matrix final_polynomial cov in
  min_log_likelihood <- perform GetLogLike ;;
  ret (final_polynomial, (- min_log_likelihood)%R).

(** [unbinned_polyfit(events, grade, t_start, t_stop, exposure, bayes)] *)
Definition unbinned_polyfit (events : list float) (grade : Z)
           (t_start t_stop exposure : float) (bayes : bool)
  : M (Polynomial * R) :=
  if Nat.eqb (length events) 0 then
    zero <- zero_polynomial grade ;;
    ret (zero, 0%R)
  else
    family <- lift (Py.getitem _grade_model_lookup grade) ;;
    perform (NewShape family) ;;
    perform (NewPointSource "dummy") ;;
    perform NewModel ;;
    perform (NewEventObservation events exposure t_start t_stop) ;;
    perform NewUnbinnedPoissonLike ;;
    if negb bayes
    then unbinned_polyfit_mle grade
    else unbinned_polyfit_bayes grade.

End Drivers.

Arguments mkState {E} world log.
Arguments world {E} s.
Arguments log {E} s.

(** ** VirtualObservatoryCatalog.query_sources *)

Section Catalog.

(** pandas data frames and astropy tables, and a catalog object with the
    two attributes the method touches. *)
Variables dataframe table : Type.

Record VirtualObservatoryCatalog : Type := mkCatalog {
  _vo_dataframe : dataframe;
  _last_query_results : option dataframe
}.

(** The methods a subclass overrides (the base class raises
    NotImplementedError in both) and the library calls of the method:
    [DataFrame.query], and [Table.from_pandas] followed by the insertion
    of the name column. *)
Variable _source_is_valid : VirtualObservatoryCatalog -> string -> outcome bool.
Variable apply_format : VirtualObservatoryCatalog -> table -> outcome table.
Variable dataframe_query : dataframe -> string -> outcome dataframe.
Variable table_from_pandas : dataframe -> outcome table.

Definition double_quote : string := String (ascii_of_nat 34) EmptyString.

(** ['(index == "%s")' % x] *)
Definition index_clause (x : string) : string :=
  ("(index == " ++ double_quote ++ x ++ double_quote ++ ")")%string.

(** The loop that fills [valid_sources]. *)
Fixpoint valid_sources (self : VirtualObservatoryCatalog)
         (sources : list string) : outcome (list string) :=
  match sources with
  | [] => Returned []
  | source :: rest =>
      ok <- _source_is_valid self source ;;
      valid <- valid_sources self rest ;;
      ret (if ok : bool then source :: valid else valid)
  end.

(** [query_sources] on the given source names: the object after the call
    and what the call gave; [Returned None] is Python's [None].  In the
    [else] branch the RuntimeError is built and dropped, and the method
    falls off its end. *)
Definition query_sources (self : VirtualObservatoryCatalog)
           (sources : list string)
  : VirtualObservatoryCatalog * outcome (option table) :=
  match valid_sources self sources with
  | Raised e => (self, Raised e)
  | Returned [] => (self, Returned None)
  | Returned (first :: others) =>
      let query_string :=
        String.concat " | " (map index_clause (first :: others)) in
      match dataframe_query (_vo_dataframe self) query_string with
      | Raised e => (self, Raised e)
      | Returned query_results =>
          match table_from_pandas query_results with
          | Raised e => (self, Raised e)
          | Returned tbl =>
              match apply_format self tbl with
              | Raised e => (self, Raised e)
              | Returned out =>
                  (mkCatalog (_vo_dataframe self) (Some query_results),
                   Returned (Some out))
              end
          end
      end
  end.

End Catalog.

Arguments mkCatalog {dataframe} _ _.
Arguments _vo_dataframe {dataframe} _.
Arguments _last_query_results {dataframe} _.
Arguments valid_sources {dataframe} _ _ _.
Arguments query_sources {dataframe table} _ _ _ _ _ _.

(** ** A small environment for concrete runs

    A model with the two free parameters a and b, whose values are kept in
    the world, and an optimizer whose first [failures] fit attempts raise
    and leave the values as they are.  A fit that goes through stores a
    results object; as long as there is none, reading its covariance matrix
    raises AttributeError. *)

Module Scenario.

Record world : Type := mkWorld {
  attempts : nat;
  results : option matrix;
  value_a : R;
  value_b : R
}.

Definition covariance : matrix := [[1; 0]; [0; 1]]%R.

Definition set_value (v : param) (value : float) (w : world) : world :=
  match value with
  | NaN => w
  | Fin r =>
      if String.eqb v "a"
      then mkWorld (attempts w) (results w) r (value_b w)
      else mkWorld (attempts w) (results w) (value_a w) r
  end.

Definition get_value (v : param) (w : world) : R :=
  if String.eqb v "a" then value_a w else value_b w.

Definition respond (failures : nat) (c : call)
  : world -> world * outcome (reply c) :=
  match c as c0 return world -> world * outcome (reply c0) with
  | FreeParameters => fun w => (w, Returned ["a"; "b"]%string)
  | SetValue v value => fun w => (set_value v value w, Returned tt)
  | GetValue v => fun w => (w, Returned (get_value v w))
  | ShapeA => fun w => (w, Returned "a"%string)
  | Fit _ => fun w =>
      if attempts w <? failures
      then (mkWorld (S (attempts w)) (results w) (value_a w) (value_b w),
            Raised (ExternalError "FitFailed"))
      else (mkWorld (S (attempts w)) (Some covariance)
              (value_a w) (value_b w),
            Returned tt)
  | ResultsCovarianceMatrix => fun w =>
      match results w with
      | Some m => (w, Returned m)
      | None => (w, Raised AttributeError)
      end
  | EstimateCovarianceMatrix => fun w => (w, Returned covariance)
  | GetLogLike => fun w => (w, Returned 3%R)
  | _ => fun w => (w, Returned tt)
  end.

Definition env (failures : nat) : Env := {|
  World := world;
  handler := respond failures;
  np_mean_ratio := fun _ _ => Fin 1;
  np_log := fun v => v;
  np_max := fun _ => Fin 1;
  np_logspace := fun _ _ _ => [Fin 1; Fin 10; Fin 100]
|}.

(** No fit has been run yet. *)
Definition start (failures : nat) : state (env failures) :=
  mkState (E := env failures) (mkWorld 0 None 0 0) [].

(** A catalog over lists of names in which no source is valid. *)
Definition no_valid_source (self : VirtualObservatoryCatalog (list string))
           (source : string) : outcome bool :=
  Returned false.

End Scenario.

(** ** Reading the call log *)

(** How many calls of a kind a stretch of the log holds. *)
Definition count_calls (P : call -> bool) (l : list call) : nat :=
  length (filter P l).

(** [jl.fit(...)] *)
Definition is_fit (c : call) : bool :=
  match c with
  | Fit _ => true
  | _ => false
  end.

(** A run of the optimizer or of the sampler. *)
Definition runs_fit (c : call) : bool :=
  match c with
  | Fit _ | Sample _ => true
  | _ => false
  end.

(** The calls that only the [if not bayes] branches make. *)
Definition optimizer_call (c : call) : bool :=
  match c with
  | NewJointLikelihood | SetMinimizer _ | NewGlobalMinimization _
  | NewLocalMinimization _ | ShapeA | GridSetup _ _ | SetGridMinimizer
  | Fit _ | ResultsCovarianceMatrix => true
  | _ => false
  end.

(** The calls that only the [else] (Bayesian) branches make. *)
Definition sampler_call (c : call) : bool :=
  match c with
  | SetPrior _ _ | NewBayesianAnalysis | SetSampler _ | SamplerSetup _ _ _
  | Sample _ | RestoreMedianFit | EstimateCovarianceMatrix => true
  | _ => false
  end.

(** [shape.b = 0] and [shape.b.fix = True] *)
Definition fixes_linear_term (c : call) : bool :=
  match c with
  | SetShapeB _ | FixShapeB => true
  | _ => false
  end.

(** A fit or sampling run that is not quiet. *)
Definition is_loud (c : call) : bool :=
  match c with
  | Fit false | Sample false => true
  | _ => false
  end.

(** Whatever state it starts in, the computation only appends to the log,
    and at most [n] calls of the kind [P]. *)
Definition spends {E : Env} {A : Type} (P : call -> bool) (n : nat)
           (m : M E A) : Prop :=
  forall s, exists l,
    log (fst (m s)) = log s ++ l /\ count_calls P l <= n.

(** The stretch holds [shape.b = 0; shape.b.fix = True], and no optimizer
    or sampler run before it. *)
Definition fixed_before_fitting (l : list call) : Prop :=
  exists l0 l1,
    l = l0 ++ [SetShapeB (Fin 0); FixShapeB] ++ l1
    /\ count_calls runs_fit l0 = 0.

(** [unbinned_polyfit], the [if not bayes] branch up to the fit
    (lines 358-389). *)
Definition unbinned_polyfit_mle_setup (E : Env) (grade : Z) : M E unit :=
  params <- perform E FreeParameters ;;
  for_enumerate E 0 params
    (fun i v =>
       if Nat.eqb i 0
       then perform E (SetBounds v (Some (Fin 0)) None) ;;
            perform E (SetValue v (Fin 10))
       else perform E (SetValue v (Fin 0))) ;;
  fix_linear_term E grade ;;
  perform E NewJointLikelihood ;;
  perform E (NewGlobalMinimization "grid") ;;
  perform E (NewLocalMinimization "minuit") ;;
  a <- perform E ShapeA ;;
  perform E (GridSetup a (np_logspace E 0 3 3)) ;;
  perform E SetGridMinimizer.

(** A kind of call that holds none of the constructors of the model and
    of the data, which both drivers call before they branch. *)
Definition not_a_constructor (P : call -> bool) : Prop :=
  (forall f, P (NewShape f) = false)
  /\ (forall n, P (NewPointSource n) = false)
  /\ P NewModel = false
  /\ (forall x y e, P (NewXYLike x y e) = false)
  /\ (forall ev e t0 t1, P (NewEventObservation ev e t0 t1) = false)
  /\ P NewUnbinnedPoissonLike = false.


(** Every run of the computation that returns has fixed the linear term
    before any optimizer or sampler run. *)
Definition fixes_first {E : Env} {A : Type} (m : M E A) : Prop :=
  forall s s' a,
    m s = (s', Returned a) ->
    exists l, log s' = log s ++ l /\ fixed_before_fitting l.

(** ** VirtualObservatoryCatalog: the other methods *)

Module VO.

(** What the class takes from outside: the methods a subclass overrides
    ([_source_is_valid], [apply_format], [_get_vo_table_from_source], the
    last one giving the data frame it stores in [_vo_dataframe]) and the
    astropy and pandas calls of the methods, each of which returns or
    raises. *)
Record Library : Type := mkLibrary {
  dataframe : Type;
  table : Type;
  votable : Type;
  skycoord : Type;
  _source_is_valid :
    VirtualObservatoryCatalog dataframe -> string -> outcome bool;
  apply_format :
    VirtualObservatoryCatalog dataframe -> table -> outcome table;
  _get_vo_table_from_source : outcome dataframe;
  dataframe_query : dataframe -> string -> outcome dataframe;
  table_from_pandas : dataframe -> outcome table;
  VOSCatalog_create : string -> string -> string -> outcome unit;
  get_icrs_coordinates : string -> outcome (R * R);
  SkyCoord : R -> R -> outcome skycoord;
  conesearch : skycoord -> R -> outcome votable;
  exception_message : exn -> outcome string;
  to_table : votable -> outcome table;
  to_sorted_frame : table -> outcome dataframe
}.

(** The base class: every overridable method raises NotImplementedError. *)
Definition base_class (L : Library) : Library :=
  mkLibrary (dataframe L) (table L) (votable L) (skycoord L)
    (fun _ _ => Raised NotImplementedError)
    (fun _ _ => Raised NotImplementedError)
    (Raised NotImplementedError)
    (dataframe_query L) (table_from_pandas L) (VOSCatalog_create L)
    (get_icrs_coordinates L) (SkyCoord L) (conesearch L)
    (exception_message L) (to_table L) (to_sorted_frame L).

Section Methods.

Variable L : Library.

(** The object with the two attributes [cone_search] adds; [None] is an
    attribute that has not been assigned. *)
Record Catalog : Type := mkObject {
  this : VirtualObservatoryCatalog (dataframe L);
  _ra : option R;
  _dec : option R
}.

(** [__init__(name, url, description)] *)
Definition __init__ (name url description : string) : outcome Catalog :=
  VOSCatalog_create L name url description ;;
  df <- _get_vo_table_from_source L ;;
  ret (mkObject (mkCatalog df None) None None).

(** [except VOSError] *)
Definition is_VOSError (e : exn) : bool :=
  match e with
  | ExternalError name => String.eqb name "VOSError"
  | _ => false
  end.

Definition with_last_query_results (self : Catalog) (df : dataframe L)
  : Catalog :=
  mkObject (mkCatalog (_vo_dataframe (this self)) (Some df))
           (_ra self) (_dec self).

(** [cone_search(ra, dec, radius)].  [_last_query_results] is assigned
    before [apply_format] is called, [_ra] and [_dec] after it. *)
Definition cone_search (self : Catalog) (ra dec radius : R)
  : Catalog * outcome (option (table L)) :=
  match SkyCoord L ra dec with
  | Raised e => (self, Raised e)
  | Returned coord =>
      match conesearch L coord radius with
      | Raised e =>
          if is_VOSError e then
            match exception_message L e with
            | Returned _ => (self, Returned None)
            | Raised e' => (self, Raised e')
            end
          else (self, Raised e)
      | Returned vot =>
          match to_table L vot with
          | Raised e => (self, Raised e)
          | Returned tbl =>
              match to_sorted_frame L tbl with
              | Raised e => (self, Raised e)
              | Returned df =>
                  let self1 := with_last_query_results self df in
                  match apply_format L (this self1) tbl with
                  | Raised e => (self1, Raised e)
                  | Returned out =>
                      (mkObject (this self1) (Some ra) (Some dec),
                       Returned (Some out))
                  end
              end
          end
      end
  end.

(** [search_around_source(source_name, radius)] *)
Definition search_around_source (self : Catalog) (source_name : string)
           (radius : R)
  : Catalog * outcome (R * R * option (table L)) :=
  match get_icrs_coordinates L source_name with
  | Raised e => (self, Raised e)
  | Returned (ra, dec) =>
      let (self', found) := cone_search self ra dec radius in
      (self', tbl <- found ;; ret (ra, dec, tbl))
  end.

(** properties [ra_center] and [dec_center] *)
Definition ra_center (self : Catalog) : outcome R :=
  match _ra self with
  | Some ra => Returned ra
  | None => Raised AttributeError
  end.

Definition dec_center (self : Catalog) : outcome R :=
  match _dec self with
  | Some dec => Returned dec
  | None => Raised AttributeError
  end.

(** [get_model()] of the base class *)
Definition get_model : outcome unit := Raised NotImplementedError.

(** [query(query)]; the argument is a string, so the assertion holds. *)
Definition query (self : VirtualObservatoryCatalog (dataframe L))
           (query_ : string)
  : VirtualObservatoryCatalog (dataframe L) * outcome (table L) :=
  match dataframe_query L (_vo_dataframe self) query_ with
  | Raised e => (self, Raised e)
  | Returned query_results =>
      match table_from_pandas L query_results with
      | Raised e => (self, Raised e)
      | Returned tbl =>
          match apply_format L self tbl with
          | Raised e => (self, Raised e)
          | Returned out =>
              (mkCatalog (_vo_dataframe self) (Some query_results),
               Returned out)
          end
      end
  end.

(** [query_sources], with the collaborators taken from [L]. *)
Definition query_sources_in
           (self : VirtualObservatoryCatalog (dataframe L))
           (sources : list string)
  : VirtualObservatoryCatalog (dataframe L) * outcome (option (table L)) :=
  query_sources (_source_is_valid L) (apply_format L) (dataframe_query L)
                (table_from_pandas L) self sources.

(** property [result]: a deep copy of the last query results; before any
    query the attribute is None, which has no [copy]. *)
Definition result (self : VirtualObservatoryCatalog (dataframe L))
  : outcome (dataframe L) :=
  match _last_query_results self with
  | None => Raised AttributeError
  | Some df => Returned df
  end.

End Methods.

Arguments mkObject {L} this _ra _dec.
Arguments this {L} c.
Arguments _ra {L} c.
Arguments _dec {L} c.
Arguments with_last_query_results {L} self df.
Arguments cone_search {L} self ra dec radius.
Arguments search_around_source {L} self source_name radius.
Arguments ra_center {L} self.
Arguments dec_center {L} self.

End VO.

(** ** A small catalog for concrete runs

    Data frames, tables and search results are lists of source names.  A
    source is valid when the catalog's data frame lists it; a query gives
    the whole frame; the cone search service answers or raises VOSError,
    an exception has no [message] attribute (reading it raises
    AttributeError, as on Python 3), and the subclass formats tables or
    leaves [apply_format] as the base class has it. *)

Module VOScenario.

Definition listed (self : VirtualObservatoryCatalog (list string))
           (source : string) : outcome bool :=
  Returned (existsb (String.eqb source) (_vo_dataframe self)).

Definition library (service_up formats : bool) : VO.Library := {|
  VO.dataframe := list string;
  VO.table := list string;
  VO.votable := list string;
  VO.skycoord := R * R;
  VO._source_is_valid := listed;
  VO.apply_format := fun _ tbl =>
    if formats then Returned tbl else Raised NotImplementedError;
  VO._get_vo_table_from_source := Returned ["Crab"; "Vela"]%string;
  VO.dataframe_query := fun df _ => Returned df;
  VO.table_from_pandas := fun df => Returned df;
  VO.VOSCatalog_create := fun _ _ _ => Returned tt;
  VO.get_icrs_coordinates := fun _ => Returned (83, 22)%R;
  VO.SkyCoord := fun ra dec => Returned (ra, dec);
  VO.conesearch := fun _ _ =>
    if service_up then Returned ["Crab"]%string
    else Raised (ExternalError "VOSError");
  VO.exception_message := fun _ => Raised AttributeError;
  VO.to_table := fun vot => Returned vot;
  VO.to_sorted_frame := fun tbl => Returned tbl
|}.

Definition fresh (service_up formats : bool)
  : VO.Catalog (library service_up formats) :=
  VO.mkObject (L := library service_up formats)
    (mkCatalog ["Crab"; "Vela"]%string None) None None.

End VOScenario.

(** [polyfit], the [else] branch up to the sampling (lines 277-303). *)
Definition polyfit_bayes_setup (E : Env) (grade : Z) (avg : float)
  : M E unit :=
  params <- perform E FreeParameters ;;
  for_enumerate E 0 params
    (fun i v =>
       if Nat.eqb i 0
       then perform E (SetBounds v (Some (Fin 0)) None) ;;
            perform E (SetPrior v
                         (Log_normal
                            (np_log E avg)
                            (np_max E [np_log E (Np.half avg); Fin 1]))) ;;
            perform E (SetValue v (Fin 1))
       else perform E (SetPrior v (Gaussian (Fin 0) (Fin 2))) ;;
            perform E (SetValue v (Fin (1 / 100)))) ;;
  fix_linear_term E grade ;;
  perform E NewBayesianAnalysis ;;
  perform E (SetSampler "emcee") ;;
  perform E (SamplerSetup 500 200 20).

(** ** An environment whose sampler fails

    As [Scenario.env 0], except that [ba.sample] raises. *)

Module SamplerDown.

Definition respond (c : call)
  : Scenario.world -> Scenario.world * outcome (reply c) :=
  match c as c0
        return Scenario.world -> Scenario.world * outcome (reply c0) with
  | Sample _ => fun w => (w, Raised (ExternalError "SamplerFailed"))
  | other => Scenario.respond 0 other
  end.

Definition env : Env := {|
  World := Scenario.world;
  handler := respond;
  np_mean_ratio := fun _ _ => Fin 1;
  np_log := fun v => v;
  np_max := fun _ => Fin 1;
  np_logspace := fun _ _ _ => [Fin 1; Fin 10; Fin 100]
|}.

Definition start : state env :=
  mkState (E := env) (Scenario.mkWorld 0 None 0 0) [].

End SamplerDown.
(** ** Facts about the Python sequence helpers *)

Section SequenceFacts.

Lemma range_seq (lo hi : Z) :
  Py.range lo hi
  = map (fun k => (lo + Z.of_nat k)%Z) (seq 0 (Z.to_nat (hi - lo))).
Proof. reflexivity. Qed.

Lemma range_length (lo hi : Z) :
  length (Py.range lo hi) = Z.to_nat (hi - lo).
Proof. unfold Py.range. now rewrite length_map, length_seq. Qed.

Lemma getitem_in_range (A : Type) (l : list A) (k : nat) (d : A) :
  k < length l ->
  Py.getitem l (Z.of_nat k) = Returned (nth k l d).
Proof.
  intros Hk. unfold Py.getitem.
  destruct (Z.ltb_spec (Z.of_nat k) 0) as [Hneg | _]; [lia |].
  destruct (Z.leb_spec 0 (Z.of_nat k)) as [_ | Hneg]; [| lia].
  destruct (Z.ltb_spec (Z.of_nat k) (Z.of_nat (length l))) as [_ | Hge];
    [| lia].
  cbn [andb]. rewrite Nat2Z.id.
  destruct (nth_error l k) as [a |] eqn:Hnth.
  - now rewrite (nth_error_nth _ _ d Hnth).
  - apply nth_error_None in Hnth. lia.
Qed.

Lemma getitem_past_end (A : Type) (l : list A) (k : nat) :
  length l <= k ->
  Py.getitem l (Z.of_nat k) = Raised IndexError.
Proof.
  intros Hk. unfold Py.getitem.
  destruct (Z.ltb_spec (Z.of_nat k) 0) as [Hneg | _]; [lia |].
  destruct (Z.ltb_spec (Z.of_nat k) (Z.of_nat (length l))) as [Hlt | _];
    [lia |].
  now rewrite andb_false_r.
Qed.

Lemma comprehension_total (A B : Type) (f : A -> outcome B) (g : A -> B)
      (l : list A) :
  (forall a, In a l -> f a = Returned (g a)) ->
  Py.comprehension f l = Returned (map g l).
Proof.
  induction l as [| a l IH]; intros Hf; [reflexivity |].
  cbn. rewrite (Hf a (or_introl eq_refl)). cbn.
  rewrite IH by (intros b Hb; apply Hf; now right).
  reflexivity.
Qed.

Lemma comprehension_raises (A B : Type) (f : A -> outcome B) (g : A -> B)
      (l1 l2 : list A) (a : A) (e : exn) :
  (forall x, In x l1 -> f x = Returned (g x)) ->
  f a = Raised e ->
  Py.comprehension f (l1 ++ a :: l2) = Raised e.
Proof.
  intros Hl1 Ha. induction l1 as [| x l1 IH]; cbn.
  - now rewrite Ha.
  - rewrite (Hl1 x (or_introl eq_refl)). cbn.
    rewrite IH by (intros y Hy; apply Hl1; now right).
    reflexivity.
Qed.

End SequenceFacts.

(** ** The constructor *)

Section Constructor.

Lemma F_coefficients_unfold (c : list R) :
  Spec.F_coefficients c
  = 0%R :: map (fun k => (nth k c 0 / INR (S k))%R) (seq 0 (length c)).
Proof.
  unfold Spec.F_coefficients.
  change (seq 0 (S (length c))) with (0 :: seq 1 (length c)).
  cbn [map Spec.F_coefficient]. f_equal.
  rewrite <- seq_shift, map_map. reflexivity.
Qed.

Lemma F_coefficients_length (c : list R) :
  length (Spec.F_coefficients c) = S (length c).
Proof. unfold Spec.F_coefficients. now rewrite length_map, length_seq. Qed.

(** With the degree of the list itself no index is out of range. *)
Lemma integral_coeff_own_degree (c : list R) :
  Poly.integral_coeff c (Z.of_nat (length c) - 1)
  = Returned (Spec.F_coefficients c).
Proof.
  unfold Poly.integral_coeff. rewrite range_seq.
  replace (Z.to_nat (Z.of_nat (length c) - 1 + 1 + 1 - 1)) with (length c)
    by lia.
  rewrite comprehension_total
    with (g := fun i => (nth (Z.to_nat (i - 1)) c 0 / IZR i)%R).
  - cbn [bind ret outcome_monad].
    rewrite F_coefficients_unfold, map_map. do 2 f_equal.
    apply map_ext. intros k.
    replace (Z.to_nat (1 + Z.of_nat k - 1)) with k by lia.
    f_equal. rewrite INR_IZR_INZ. f_equal. lia.
  - intros i Hi. apply in_map_iff in Hi. destruct Hi as (k & <- & Hk).
    apply in_seq in Hk.
    replace (1 + Z.of_nat k - 1)%Z with (Z.of_nat k) by lia.
    rewrite getitem_in_range with (d := 0%R) by lia.
    cbn [bind ret outcome_monad]. now rewrite Nat2Z.id.
Qed.

Lemma Polynomial_init_integral (c : list R) :
  Poly.__init__ c true = Returned (plain c).
Proof. now simp __init__. Qed.

Lemma Polynomial_init_plain (c : list R) :
  Poly.__init__ c false
  = Returned (with_integral_polynomial (plain c)
                (plain (Spec.F_coefficients c))).
Proof.
  simp __init__. rewrite integral_coeff_own_degree.
  cbn [Poly.__init___clause_2]. simp __init__. reflexivity.
Qed.

(** The constructor returns for every argument. *)
Lemma Polynomial_init_returns (c : list R) (is_integral : bool) :
  exists p, Poly.__init__ c is_integral = Returned p
            /\ _coefficients p = c
            /\ _degree p = (Z.of_nat (length c) - 1)%Z.
Proof.
  destruct is_integral.
  - exists (plain c). now rewrite Polynomial_init_integral.
  - eexists. rewrite Polynomial_init_plain. now split.
Qed.

End Constructor.

(** ** Sums and dot products *)

Section Sums.

Lemma sum_nil : Np.sum [] = 0%R.
Proof. reflexivity. Qed.

Lemma sum_cons (a : R) (v : vector) : Np.sum (a :: v) = (a + Np.sum v)%R.
Proof. reflexivity. Qed.

Lemma sum_ext (A : Type) (f g : A -> R) (l : list A) :
  (forall a, In a l -> f a = g a) ->
  Np.sum (map f l) = Np.sum (map g l).
Proof.
  intros H. f_equal. apply map_ext_in. exact H.
Qed.

Lemma sum_scale_r (A : Type) (f : A -> R) (k : R) (l : list A) :
  Np.sum (map (fun a => f a * k)%R l) = (Np.sum (map f l) * k)%R.
Proof.
  induction l as [| a l IH]; cbn [map];
    rewrite ?sum_nil, ?sum_cons; [ring |]. rewrite IH. ring.
Qed.

Lemma sum_plus (A : Type) (f g : A -> R) (l : list A) :
  Np.sum (map (fun a => f a + g a)%R l)
  = (Np.sum (map f l) + Np.sum (map g l))%R.
Proof.
  induction l as [| a l IH]; cbn [map];
    rewrite ?sum_nil, ?sum_cons; [ring |]. rewrite IH. ring.
Qed.

Lemma sum_zero (A : Type) (l : list A) :
  Np.sum (map (fun _ => 0%R) l) = 0%R.
Proof.
  induction l as [| a l IH]; cbn [map]; rewrite ?sum_nil, ?sum_cons;
    [reflexivity |]. rewrite IH. ring.
Qed.

(** Exchange of the two summations. *)
Lemma sum_swap (A B : Type) (f : A -> B -> R) (la : list A) (lb : list B) :
  Np.sum (map (fun a => Np.sum (map (fun b => f a b) lb)) la)
  = Np.sum (map (fun b => Np.sum (map (fun a => f a b) la)) lb).
Proof.
  induction la as [| a la IH]; cbn [map].
  - now rewrite sum_zero.
  - rewrite sum_cons, IH, <- sum_plus. apply sum_ext. intros b _.
    now rewrite sum_cons.
Qed.

Lemma map2_length (f : R -> R -> R) (u v : vector) :
  length (Np.map2 f u v) = Nat.min (length u) (length v).
Proof.
  revert v. induction u as [| a u IH]; intros [| b v]; cbn; auto.
Qed.

Lemma map2_map (A : Type) (f : R -> R -> R) (g h : A -> R) (l : list A) :
  Np.map2 f (map g l) (map h l) = map (fun a => f (g a) (h a)) l.
Proof. induction l as [| a l IH]; cbn; [reflexivity |]. now rewrite IH. Qed.

Lemma map2_tabulate (f : R -> R -> R) (u v : vector) :
  length u = length v ->
  Np.map2 f u v
  = map (fun i => f (nth i u 0%R) (nth i v 0%R)) (seq 0 (length u)).
Proof.
  revert v. induction u as [| a u IH]; intros [| b v] Hlen;
    try discriminate; [reflexivity |].
  cbn. f_equal. rewrite <- seq_shift, map_map. apply IH.
  now injection Hlen.
Qed.

Lemma nth_tabulate (f : nat -> R) (n i : nat) :
  i < n -> nth i (map f (seq 0 n)) 0%R = f i.
Proof.
  intros Hi. rewrite nth_indep with (d' := f 0%nat)
    by now rewrite length_map, length_seq.
  rewrite map_nth, seq_nth by assumption. reflexivity.
Qed.

Lemma nth_indep_eq_default (A : Type) (l : list A) (i : nat) (d d' : A) :
  d = d' -> nth i l d = nth i l d'.
Proof. now intros ->. Qed.

Lemma nth_column (m : matrix) (i j : nat) :
  nth i (Np.column m j) 0%R = nth j (nth i m []) 0%R.
Proof.
  unfold Np.column.
  rewrite <- (map_nth (fun r : list R => nth j r 0%R) m [] i).
  apply nth_indep_eq_default. now destruct j.
Qed.

End Sums.

(** ** Evaluation *)

Section Evaluation.

Lemma call_horner (p : Polynomial) (x : R) :
  Poly.__call__ p x = Spec.horner (_coefficients p) x.
Proof.
  unfold Poly.__call__.
  rewrite <- (rev_involutive (_coefficients p)) at 2.
  induction (rev (_coefficients p)) as [| a l IH] using rev_ind.
  - reflexivity.
  - rewrite fold_left_app, rev_app_distr. cbn. rewrite IH. ring.
Qed.

Lemma monomials_horner (c : list R) (x : R) (k : nat) :
  Spec.monomials k c x = (x ^ k * Spec.horner c x)%R.
Proof.
  revert k. induction c as [| c0 c IH]; intros k; cbn.
  - ring.
  - rewrite IH. cbn. ring.
Qed.

Lemma monomials_tabulate (f : nat -> R) (x : R) (a n : nat) :
  Spec.monomials a (map f (seq a n)) x
  = Np.sum (map (fun i => f i * x ^ i)%R (seq a n)).
Proof.
  revert a. induction n as [| n IH]; intros a; cbn [seq map Spec.monomials];
    [reflexivity |].
  now rewrite sum_cons, IH.
Qed.

(** Horner's scheme computes the sum of the monomials c_i x^i. *)
Lemma horner_monomials (c : list R) (x : R) :
  Spec.horner c x = Spec.monomials 0 c x.
Proof. rewrite monomials_horner. cbn. ring. Qed.

Lemma call_F (c : list R) (x : R) :
  Poly.__call__ (plain (Spec.F_coefficients c)) x = Spec.F c x.
Proof.
  rewrite call_horner, horner_monomials. cbn [plain _coefficients].
  unfold Spec.F_coefficients, Spec.F. apply monomials_tabulate.
Qed.

End Evaluation.

(** ** The coefficient setter *)

Section Setter.

Lemma integral_coeff_item (v : list R) (k : nat) :
  k < length v ->
  (c <- Py.getitem v (1 + Z.of_nat k - 1) ;;
   ret (c / IZR (1 + Z.of_nat k))%R)
  = Returned (nth k v 0 / INR (S k))%R.
Proof.
  intros Hk. replace (1 + Z.of_nat k - 1)%Z with (Z.of_nat k) by lia.
  rewrite getitem_in_range with (d := 0%R) by assumption.
  cbn [bind ret outcome_monad]. do 2 f_equal.
  rewrite INR_IZR_INZ. f_equal. lia.
Qed.

(** A degree smaller than that of the list: only the first degree+1
    coefficients are integrated. *)
Lemma integral_coeff_truncates (v : list R) (d : Z) :
  (0 <= d + 1 <= Z.of_nat (length v))%Z ->
  Poly.integral_coeff v d
  = Returned (Spec.F_coefficients (firstn (Z.to_nat (d + 1)) v)).
Proof.
  intros Hd. unfold Poly.integral_coeff. rewrite range_seq.
  replace (Z.to_nat (d + 1 + 1 - 1)) with (Z.to_nat (d + 1)) by lia.
  rewrite comprehension_total
    with (g := fun i => (nth (Z.to_nat (i - 1)) v 0
                         / INR (S (Z.to_nat (i - 1))))%R).
  - cbn [bind ret outcome_monad].
    rewrite F_coefficients_unfold, map_map, length_firstn.
    rewrite Nat.min_l by lia. do 2 f_equal.
    apply map_ext_in. intros k Hk. apply in_seq in Hk.
    replace (Z.to_nat (1 + Z.of_nat k - 1)) with k by lia.
    f_equal. rewrite nth_firstn.
    destruct (Nat.ltb_spec k (Z.to_nat (d + 1))); [reflexivity | lia].
  - intros i Hi. apply in_map_iff in Hi. destruct Hi as (k & <- & Hk).
    apply in_seq in Hk. rewrite integral_coeff_item by lia.
    now replace (Z.to_nat (1 + Z.of_nat k - 1)) with k by lia.
Qed.

(** A degree larger than that of the list: the index runs off its end. *)
Lemma integral_coeff_index_error (v : list R) (d : Z) :
  (Z.of_nat (length v) < d + 1)%Z ->
  Poly.integral_coeff v d = Raised IndexError.
Proof.
  intros Hd. unfold Poly.integral_coeff. rewrite range_seq.
  replace (Z.to_nat (d + 1 + 1 - 1))
    with (length v + S (Z.to_nat (d + 1) - S (length v))) by lia.
  rewrite seq_app, map_app. cbn [seq map Nat.add].
  rewrite comprehension_raises
    with (g := fun i => (nth (Z.to_nat (i - 1)) v 0
                         / INR (S (Z.to_nat (i - 1))))%R)
         (e := IndexError).
  - reflexivity.
  - intros i Hi. apply in_map_iff in Hi. destruct Hi as (k & <- & Hk).
    apply in_seq in Hk. rewrite integral_coeff_item by lia.
    now replace (Z.to_nat (1 + Z.of_nat k - 1)) with k by lia.
  - replace (1 + Z.of_nat (length v) - 1)%Z with (Z.of_nat (length v))
      by lia.
    now rewrite getitem_past_end by lia.
Qed.

(** The setter on a vector at least as long as the recorded degree says:
    it returns, and the cached integral polynomial is the antiderivative
    of the first degree+1 coefficients. *)
Lemma set_coefficient_returns (p : Polynomial) (v : list R) :
  (0 <= _degree p + 1 <= Z.of_nat (length v))%Z ->
  Poly.__set_coefficient p v
  = (with_integral_polynomial (with_coefficients p v)
       (plain (Spec.F_coefficients
                 (firstn (Z.to_nat (_degree p + 1)) v))),
     Returned tt).
Proof.
  intros Hdeg. unfold Poly.__set_coefficient.
  cbn [with_coefficients _coefficients _degree].
  rewrite integral_coeff_truncates by assumption.
  now rewrite Polynomial_init_integral.
Qed.

(** The setter on a shorter vector: IndexError, raised after the
    coefficients were replaced. *)
Lemma set_coefficient_raises (p : Polynomial) (v : list R) :
  (Z.of_nat (length v) < _degree p + 1)%Z ->
  Poly.__set_coefficient p v = (with_coefficients p v, Raised IndexError).
Proof.
  intros Hdeg. unfold Poly.__set_coefficient.
  cbn [with_coefficients _coefficients _degree].
  now rewrite integral_coeff_index_error by assumption.
Qed.

(** When the new vector is as long as the degree recorded at
    construction says, the setter rebuilds the antiderivative. *)
Lemma set_coefficient_same_length (p : Polynomial) (v : list R) :
  _degree p = (Z.of_nat (length v) - 1)%Z ->
  Poly.__set_coefficient p v
  = (with_integral_polynomial (with_coefficients p v)
       (plain (Spec.F_coefficients v)), Returned tt).
Proof.
  intros Hdeg. rewrite set_coefficient_returns by lia.
  replace (Z.to_nat (_degree p + 1)) with (length v) by lia.
  now rewrite firstn_all.
Qed.

End Setter.


(** ** Error propagation *)

Section ErrorPropagation.

Lemma square_rectangular (n : nat) (m : matrix) :
  Spec.square n m -> Np.rectangular m = true /\ Np.ncols m = n.
Proof.
  intros [Hrows Hcols]. assert (Hn : Np.ncols m = n).
  { destruct m as [| r m]; cbn in *; [assumption |].
    now inversion Hcols. }
  split; [| exact Hn].
  unfold Np.rectangular. rewrite Hn. apply forallb_forall.
  intros r Hr. apply Nat.eqb_eq.
  rewrite Forall_forall in Hcols. now apply Hcols.
Qed.

(** [c.dot(S).dot(c)] is the quadratic form of [S] at [c]. *)
Lemma dot_dot_quadratic_form (c : vector) (m : matrix) :
  Spec.square (length c) m ->
  (tmp <- Np.dot_vm c m ;; Np.dot_vv tmp c)
  = Returned (Spec.quadratic_form c m).
Proof.
  intros Hsq. destruct (square_rectangular _ _ Hsq) as [Hrect Hn].
  destruct Hsq as [Hrows _].
  unfold Np.dot_vm. rewrite Hrows, Nat.eqb_refl, Hrect, Hn.
  cbn [andb bind outcome_monad]. unfold Np.dot_vv.
  rewrite length_map, length_seq, Nat.eqb_refl. f_equal.
  rewrite map2_tabulate by now rewrite length_map, length_seq.
  rewrite length_map, length_seq.
  unfold Spec.quadratic_form. rewrite sum_swap.
  apply sum_ext. intros j Hj. apply in_seq in Hj.
  rewrite nth_tabulate by lia.
  rewrite map2_tabulate by (unfold Np.column; now rewrite length_map).
  rewrite <- sum_scale_r. apply sum_ext. intros i _.
  now rewrite nth_column.
Qed.

Lemma constructed_i_plus_1 (p : Polynomial) :
  constructed p -> _i_plus_1 p = Py.range 1 (_degree p + 1 + 1).
Proof.
  induction 1 as [c [|] p Hinit | p m _ IH | p v _ IH].
  - rewrite Polynomial_init_integral in Hinit. now inversion Hinit.
  - rewrite Polynomial_init_plain in Hinit. now inversion Hinit.
  - exact IH.
  - unfold Poly.__set_coefficient.
    destruct (Poly.integral_coeff _ _) as [ic |]; [| exact IH].
    destruct (Poly.__init__ ic true); exact IH.
Qed.

Lemma eval_basis_difference (p : Polynomial) (xmin xmax : R) :
  constructed p ->
  Np.map2 Rminus (Poly._eval_basis p xmax) (Poly._eval_basis p xmin)
  = Spec.basis (_degree p) xmin xmax.
Proof.
  intros Hp. unfold Poly._eval_basis.
  rewrite (constructed_i_plus_1 p Hp), !map2_map, range_seq, map_map.
  unfold Spec.basis.
  replace (Z.to_nat (_degree p + 1 + 1 - 1)) with (Z.to_nat (_degree p + 1))
    by lia.
  apply map_ext. intros i.
  replace (Z.to_nat (1 + Z.of_nat i)) with (S i) by lia.
  replace (1 + Z.of_nat i)%Z with (Z.of_nat (S i)) by lia.
  rewrite <- INR_IZR_INZ.
  assert (INR (S i) <> 0%R) by (apply not_0_INR; discriminate).
  now field.
Qed.

Lemma basis_length (d : Z) (xmin xmax : R) :
  length (Spec.basis d xmin xmax) = Z.to_nat (d + 1).
Proof. unfold Spec.basis. now rewrite length_map, length_seq. Qed.

End ErrorPropagation.

(** ** The statements about [Polynomial] *)

Section PolynomialClaims.

(** C1.  For every Polynomial object (its coefficient vector has
    degree+1 entries) whose covariance matrix S has shape
    (degree+1) x (degree+1), and for all xmin and xmax,
    [integral_error(xmin, xmax)] returns sqrt(c^T S c), where
    c_i = (xmax^(i+1) - xmin^(i+1)) / (i+1) for i in 0..degree.
    Floats are read as real numbers. *)
Theorem integral_error_formula (p : Polynomial) (xmin xmax : R) :
  constructed p ->
  Spec.square (Z.to_nat (_degree p + 1)) (_cov_matrix p) ->
  Poly.integral_error p xmin xmax
  = Returned (sqrt (Spec.quadratic_form
                      (Spec.basis (_degree p) xmin xmax)
                      (_cov_matrix p))).
Proof.
  intros Hp Hsq. unfold Poly.integral_error.
  rewrite (eval_basis_difference p xmin xmax Hp).
  rewrite <- (basis_length (_degree p) xmin xmax) in Hsq.
  pose proof (dot_dot_quadratic_form _ _ Hsq) as Hdot.
  cbn [bind outcome_monad] in *.
  destruct (Np.dot_vm _ _) as [tmp |]; [| discriminate].
  now rewrite Hdot.
Qed.

Lemma integral_error_formula_witness :
  let S := [[4; 0]; [0; 1]]%R in
  let p := Poly.set_covariace_matrix
             (with_integral_polynomial
                (plain [3; 2]%R) (plain (Spec.F_coefficients [3; 2]%R))) S in
  constructed p
  /\ Spec.square (Z.to_nat (_degree p + 1)) (_cov_matrix p)
  /\ Poly.integral_error p 0 1
     = Returned (sqrt (Spec.quadratic_form (Spec.basis 1 0 1) S)).
Proof.
  assert (Hc : constructed
                 (Poly.set_covariace_matrix
                    (with_integral_polynomial
                       (plain [3; 2]%R)
                       (plain (Spec.F_coefficients [3; 2]%R)))
                    [[4; 0]; [0; 1]]%R)).
  { apply constructed_set_cov.
    exact (constructed_init _ _ _ (Polynomial_init_plain [3; 2]%R)). }
  assert (Hs : Spec.square 2 [[4; 0]; [0; 1]]%R).
  { split; [reflexivity | repeat constructor]. }
  split; [exact Hc | split; [exact Hs |]].
  exact (integral_error_formula _ 0 1 Hc Hs).
Defined.

(** C2.  For every coefficient list c_0..c_n, the Polynomial constructed
    from it (not marked is_integral) exists, and for all xmin and xmax its
    [integral(xmin, xmax)] returns F(xmax) - F(xmin), where F is the
    polynomial with constant term 0 and coefficient c[i-1]/i at power i,
    1 <= i <= n+1. *)
Theorem integral_is_F_difference (c : list R) (xmin xmax : R) :
  exists p,
    Poly.__init__ c false = Returned p
    /\ Poly.integral p xmin xmax
       = Returned (Spec.F c xmax - Spec.F c xmin)%R.
Proof.
  eexists. split; [apply Polynomial_init_plain |].
  unfold Poly.integral. cbn [with_integral_polynomial _integral_polynomial].
  now rewrite !call_F.
Qed.

(** C3.  For every coefficient vector c and every x, calling the
    Polynomial built from c at x gives the Horner evaluation of c at x; in
    particular Polynomial([1,2,3]) called at 2 gives 17. *)
Theorem call_is_horner :
  (forall (c : list R) (is_integral : bool) (x : R),
      exists p, Poly.__init__ c is_integral = Returned p
                /\ Poly.__call__ p x = Spec.horner c x)
  /\ (exists p, Poly.__init__ [1; 2; 3]%R false = Returned p
                /\ Poly.__call__ p 2 = 17%R).
Proof.
  split.
  - intros c is_integral x.
    destruct (Polynomial_init_returns c is_integral) as (p & Hp & Hc & _).
    exists p. split; [exact Hp |]. now rewrite call_horner, Hc.
  - eexists. split; [apply Polynomial_init_plain |].
    unfold Poly.__call__. cbn. ring.
Qed.

(** C9.  For every coefficient vector, the object constructed with
    is_integral=True has no integral polynomial; the object constructed
    with is_integral=False has one, which itself has none: the nesting is
    exactly one level deep, and the constructor returns in both cases. *)
Theorem integral_polynomial_one_level (c : list R) :
  (exists q, Poly.__init__ c true = Returned q
             /\ _integral_polynomial q = None
             /\ Poly.nesting q = 0)
  /\ (exists p q, Poly.__init__ c false = Returned p
                  /\ _integral_polynomial p = Some q
                  /\ _integral_polynomial q = None
                  /\ Poly.nesting p = 1).
Proof.
  split.
  - exists (plain c). now rewrite Polynomial_init_integral.
  - do 2 eexists. rewrite Polynomial_init_plain.
    split; [reflexivity |]. cbn. repeat split.
Qed.

(** C4, at two inputs the setter can receive.  The object built from
    [1, 2] has degree 1.  Assigning the three coefficients [1, 2, 3]
    returns, keeps degree 1 and caches the antiderivative of [1, 2], three
    coefficients, which is not the antiderivative of [1, 2, 3].  Assigning
    the single coefficient [1] raises IndexError after the coefficients
    were replaced, and the cached integral polynomial is still the one of
    [1, 2]. *)
Theorem set_coefficient_stale_degree :
  let p := with_integral_polynomial
             (plain [1; 2]%R) (plain (Spec.F_coefficients [1; 2]%R)) in
  Poly.__init__ [1; 2]%R false = Returned p
  /\ (exists p',
        Poly.__set_coefficient p [1; 2; 3]%R = (p', Returned tt)
        /\ _coefficients p' = [1; 2; 3]%R
        /\ _degree p' = 1%Z
        /\ _integral_polynomial p'
           = Some (plain (Spec.F_coefficients [1; 2]%R))
        /\ option_map _coefficients (_integral_polynomial p')
           <> Some (Spec.F_coefficients [1; 2; 3]%R))
  /\ (exists p',
        Poly.__set_coefficient p [1]%R = (p', Raised IndexError)
        /\ _coefficients p' = [1]%R
        /\ _integral_polynomial p'
           = Some (plain (Spec.F_coefficients [1; 2]%R))).
Proof.
  cbn zeta. split; [apply Polynomial_init_plain |]. split.
  - eexists. split; [| split; [| split; [| split]]].
    + rewrite set_coefficient_returns by (cbn; lia). reflexivity.
    + reflexivity.
    + reflexivity.
    + reflexivity.
    + intros H. apply (f_equal (option_map (@length R))) in H.
      discriminate H.
  - eexists. split; [| split].
    + rewrite set_coefficient_raises by (cbn; lia). reflexivity.
    + reflexivity.
    + reflexivity.
Qed.

End PolynomialClaims.

(** ** Running the drivers *)

Section Runs.

Variable E : Env.

Lemma bind_returned (A B : Type) (m : M E A) (k : A -> M E B)
      (s s' : state E) (a : A) :
  m s = (s', Returned a) -> bind m k s = k a s'.
Proof. intros H. cbn. now rewrite H. Qed.

Lemma bind_raised (A B : Type) (m : M E A) (k : A -> M E B)
      (s s' : state E) (e : exn) :
  m s = (s', Raised e) -> bind m k s = (s', Raised e).
Proof. intros H. cbn. now rewrite H. Qed.

Lemma perform_run (c : call) (s : state E) :
  perform E c s
  = (mkState (fst (handler E c (world s))) (log s ++ [c]),
     snd (handler E c (world s))).
Proof. unfold perform. now destruct (handler E c (world s)). Qed.

(** The first attempt goes through: one call of fit. *)
Lemma fit_with_retry_first (s : state E) (w : World E) :
  handler E (Fit true) (world s) = (w, Returned tt) ->
  fit_with_retry E s = (mkState w (log s ++ [Fit true]), Returned tt).
Proof.
  intros H. unfold fit_with_retry, try_except.
  rewrite perform_run, H. reflexivity.
Qed.

(** The first attempt raises: a second call of fit with the same
    argument, in the state the first one left; however it ends, the block
    returns. *)
Lemma fit_with_retry_second (s : state E) (w : World E) (e : exn) :
  handler E (Fit true) (world s) = (w, Raised e) ->
  fit_with_retry E s
  = (mkState (fst (handler E (Fit true) w)) (log s ++ [Fit true; Fit true]),
     Returned tt).
Proof.
  intros H. unfold fit_with_retry, try_except.
  rewrite perform_run, H. cbn [fst snd].
  rewrite perform_run. cbn [world log].
  rewrite <- app_assoc. cbn [app].
  destruct (handler E (Fit true) w) as [w' [a | e']]; [| reflexivity].
  cbn in a. now destruct a.
Qed.

(** The two [try] blocks never raise. *)
Lemma fit_with_retry_returns (s : state E) :
  exists s', fit_with_retry E s = (s', Returned tt).
Proof.
  destruct (handler E (Fit true) (world s)) as [w [a | e]] eqn:H.
  - cbn in a. destruct a. eexists. apply fit_with_retry_first. exact H.
  - eexists. apply (fit_with_retry_second s w e). exact H.
Qed.

Lemma zero_polynomial_run (grade : Z) (s : state E) :
  zero_polynomial E grade s
  = (s, Returned (with_integral_polynomial
                    (plain (Py.replicate 0%R (grade + 1)))
                    (plain (Spec.F_coefficients
                              (Py.replicate 0%R (grade + 1)))))).
Proof. unfold zero_polynomial, lift. now rewrite Polynomial_init_plain. Qed.

End Runs.

(** ** Boolean masks *)

Section Masks.

Lemma keep_filter (y : list float) :
  Np.keep y (map negb (map Np.isnan y)) = filter (fun v => negb (Np.isnan v)) y.
Proof.
  induction y as [| v y IH]; [reflexivity |].
  cbn. rewrite IH. reflexivity.
Qed.

Lemma nan_mask_length (y : list float) :
  length (map negb (map Np.isnan y)) = length y.
Proof. now rewrite !length_map. Qed.

Lemma select_same_length (A : Type) (a : list A) (y : list float) :
  length a = length y ->
  Np.select a (map negb (map Np.isnan y))
  = Returned (Np.keep a (map negb (map Np.isnan y))).
Proof.
  intros H. unfold Np.select.
  now rewrite nan_mask_length, H, Nat.eqb_refl.
Qed.

Lemma count_true_none (l : list float) :
  Forall (fun v => Np.positive v = false) l ->
  Np.count_true (map Np.positive l) = 0.
Proof.
  unfold Np.count_true. induction 1 as [| v l Hv _ IH]; [reflexivity |].
  cbn. now rewrite Hv.
Qed.

Lemma remove_at_length (A : Type) (i : nat) (l : list A) :
  i < length l -> length (Spec.remove_at i l) = length l - 1.
Proof.
  intros Hi. unfold Spec.remove_at.
  rewrite length_app, length_firstn, length_skipn. lia.
Qed.

Lemma remove_at_cons (A : Type) (i : nat) (a : A) (l : list A) :
  Spec.remove_at (S i) (a :: l) = a :: Spec.remove_at i l.
Proof. reflexivity. Qed.

Lemma keep_remove_at (A : Type) (i : nat) (a : list A) (y : list float) :
  nth_error y i = Some NaN ->
  Np.keep (Spec.remove_at i a) (map negb (map Np.isnan (Spec.remove_at i y)))
  = Np.keep a (map negb (map Np.isnan y)).
Proof.
  revert a y. induction i as [| i IH]; intros a [| u y] Hy;
    try discriminate.
  - cbn in Hy. injection Hy as ->. now destruct a.
  - cbn [nth_error] in Hy. rewrite remove_at_cons.
    destruct a as [| v a]; [reflexivity |].
    rewrite remove_at_cons. cbn [map Np.keep].
    rewrite (IH a y Hy). reflexivity.
Qed.

(** Dropping the index of a NaN beforehand does not change what the mask
    selects, nor whether the lengths agree. *)
Lemma select_remove_at (A : Type) (i : nat) (a : list A) (y : list float) :
  i < length a ->
  nth_error y i = Some NaN ->
  Np.select (Spec.remove_at i a) (map negb (map Np.isnan (Spec.remove_at i y)))
  = Np.select a (map negb (map Np.isnan y)).
Proof.
  intros Ha Hy.
  assert (Hi : i < length y) by (apply nth_error_Some; congruence).
  unfold Np.select.
  rewrite !nan_mask_length, !remove_at_length, keep_remove_at by assumption.
  destruct (Nat.eqb_spec (length a - 1) (length y - 1)) as [H1 | H1];
    destruct (Nat.eqb_spec (length a) (length y)) as [H2 | H2];
    try reflexivity; lia.
Qed.

End Masks.

(** ** The statements about the fit drivers *)

Section DriverClaims.

Variable E : Env.

(** C6.  For every grade in 0..4 and every input (x, y, exposure) of one
    length, if no sample that remains after the NaN entries of y are
    dropped has y > 0, polyfit returns a Polynomial with grade+1
    coefficients, all 0, and likelihood 0, and makes no call into the
    fitting machinery (state and log are unchanged). *)
Theorem polyfit_no_counts (x y exposure : list float) (grade : Z)
        (bayes : bool) (s : state E) :
  length x = length y ->
  length exposure = length y ->
  (0 <= grade <= 4)%Z ->
  Forall (fun v => Np.positive v = false)
         (filter (fun v => negb (Np.isnan v)) y) ->
  exists p,
    polyfit E x y grade exposure bayes s = (s, Returned (p, 0%R))
    /\ _coefficients p = repeat 0%R (Z.to_nat (grade + 1))
    /\ Z.of_nat (length (_coefficients p)) = (grade + 1)%Z.
Proof.
  intros Hx He Hgrade Hy. eexists. split; [| split].
  - unfold polyfit. cbn zeta.
    rewrite !select_same_length by auto.
    unfold lift at 1 2 3. cbn [bind M_monad].
    rewrite keep_filter, (count_true_none _ Hy). cbn [Nat.eqb].
    rewrite zero_polynomial_run. reflexivity.
  - reflexivity.
  - cbn [with_integral_polynomial plain _coefficients].
    unfold Py.replicate. rewrite repeat_length. lia.
Qed.

(** C7.  For every grade, t_start, t_stop, exposure and mode,
    unbinned_polyfit on an empty event list returns at once (no call is
    made) the zero polynomial, whose grade+1 coefficients are all 0, and
    likelihood 0. *)
Theorem unbinned_polyfit_no_events (grade : Z)
        (t_start t_stop exposure : float) (bayes : bool) (s : state E) :
  exists p,
    unbinned_polyfit E [] grade t_start t_stop exposure bayes s
    = (s, Returned (p, 0%R))
    /\ _coefficients p = repeat 0%R (Z.to_nat (grade + 1))
    /\ length (_coefficients p) = Z.to_nat (grade + 1).
Proof.
  eexists. split; [| split].
  - unfold unbinned_polyfit. cbn [length Nat.eqb bind M_monad].
    rewrite zero_polynomial_run. reflexivity.
  - reflexivity.
  - cbn [with_integral_polynomial plain _coefficients].
    unfold Py.replicate. now rewrite repeat_length.
Qed.

(** C8.  For every input (x, y, exposure, grade, bayes) in which y holds a
    NaN at an index that x and exposure have too, polyfit run on the
    input is polyfit run on the input with that index taken out of x, y
    and exposure: same calls, same final state, same result. *)
Theorem polyfit_nan_dropped (x y exposure : list float) (grade : Z)
        (bayes : bool) (i : nat) (s : state E) :
  i < length x ->
  i < length exposure ->
  nth_error y i = Some NaN ->
  polyfit E x y grade exposure bayes s
  = polyfit E (Spec.remove_at i x) (Spec.remove_at i y) grade
      (Spec.remove_at i exposure) bayes s.
Proof.
  intros Hx He Hy.
  assert (Hi : i < length y) by (apply nth_error_Some; congruence).
  unfold polyfit. cbn zeta.
  rewrite (select_remove_at _ i x y Hx Hy).
  rewrite (select_remove_at _ i exposure y He Hy).
  rewrite (select_remove_at _ i y y Hi Hy).
  reflexivity.
Qed.

End DriverClaims.

(** ** Concrete runs *)

Section ConcreteRuns.

Lemma positive_one : Np.positive (Fin 1) = true.
Proof.
  unfold Np.positive.
  destruct (Rlt_dec 0 1) as [_ | H]; [reflexivity | exfalso; lra].
Qed.

Lemma positive_zero : Np.positive (Fin 0) = false.
Proof.
  unfold Np.positive.
  destruct (Rlt_dec 0 0) as [H | _]; [exfalso; lra | reflexivity].
Qed.

(** C5, at an input polyfit can receive: one bin with one count, grade 1,
    MLE mode, and an optimizer that raises on both attempts, so that no
    results object exists.  The claim asks that polyfit then goes on with
    the parameter values the model holds and returns a Polynomial.  The
    code does retry exactly once and swallows both exceptions, and it does
    read the parameter values, but it then raises AttributeError to its
    caller from the covariance of the results, which is read outside the
    try blocks. *)
Lemma polyfit_raises_after_two_failed_fits :
  exists s',
    polyfit (Scenario.env 2) [Fin 1] [Fin 1] 1 [Fin 1] false
            (Scenario.start 2)
    = (s', Raised AttributeError)
    /\ log s'
       = [NewShape Line; NewPointSource "_dummy"; NewModel;
          NewXYLike [Fin 1] [Fin 1] [Fin 1]; FreeParameters;
          SetBounds "a" (Some (Fin 0)) None;
          SetValue "a" (Fin 1); SetValue "b" (Fin 0);
          NewJointLikelihood; SetMinimizer "minuit";
          Fit true; Fit true;
          FreeParameters; GetValue "a"; GetValue "b";
          ResultsCovarianceMatrix].
Proof.
  eexists. unfold polyfit.
  cbn -[Np.positive Poly.__init__]. rewrite positive_one.
  cbn -[Np.positive Poly.__init__]. rewrite Polynomial_init_plain.
  split; reflexivity.
Qed.

Lemma polyfit_no_counts_witness :
  exists p,
    polyfit (Scenario.env 0) [Fin 1; Fin 2] [Fin 0; NaN] 2 [Fin 1; Fin 1]
            false (Scenario.start 0)
    = (Scenario.start 0, Returned (p, 0%R))
    /\ _coefficients p = [0; 0; 0]%R
    /\ Z.of_nat (length (_coefficients p)) = 3%Z.
Proof.
  refine (polyfit_no_counts (Scenario.env 0)
            [Fin 1; Fin 2] [Fin 0; NaN] [Fin 1; Fin 1] 2 false
            (Scenario.start 0) eq_refl eq_refl _ _).
  - lia.
  - cbn. constructor; [exact positive_zero | constructor].
Defined.

Lemma polyfit_nan_dropped_witness :
  polyfit (Scenario.env 0) [Fin 1; Fin 2; Fin 3] [Fin 4; NaN; Fin 5] 1
          [Fin 1; Fin 1; Fin 1] false (Scenario.start 0)
  = polyfit (Scenario.env 0) [Fin 1; Fin 3] [Fin 4; Fin 5] 1
            [Fin 1; Fin 1] false (Scenario.start 0).
Proof.
  refine (polyfit_nan_dropped (Scenario.env 0)
            [Fin 1; Fin 2; Fin 3] [Fin 4; NaN; Fin 5] [Fin 1; Fin 1; Fin 1]
            1 false 1 (Scenario.start 0) _ _ eq_refl); cbn; lia.
Defined.

End ConcreteRuns.

(** ** The statement about the catalog *)

Section CatalogClaims.

Variables dataframe table : Type.
Variable _source_is_valid :
  VirtualObservatoryCatalog dataframe -> string -> outcome bool.
Variable apply_format :
  VirtualObservatoryCatalog dataframe -> table -> outcome table.
Variable dataframe_query : dataframe -> string -> outcome dataframe.
Variable table_from_pandas : dataframe -> outcome table.

Lemma valid_sources_none (self : VirtualObservatoryCatalog dataframe)
      (sources : list string) :
  (forall source, In source sources ->
                  _source_is_valid self source = Returned false) ->
  valid_sources _source_is_valid self sources = Returned [].
Proof.
  induction sources as [| source rest IH]; intros H; [reflexivity |].
  cbn. rewrite (H source (or_introl eq_refl)). cbn.
  rewrite IH by (intros x Hx; apply H; now right).
  reflexivity.
Qed.

(** C10.  For every call of query_sources in which the validity check
    answers False for each given source name, the method returns None
    (no exception: the RuntimeError it builds is not raised) and the
    object, hence its last query results, is unchanged. *)
Theorem query_sources_no_valid_source
        (self : VirtualObservatoryCatalog dataframe)
        (sources : list string) :
  (forall source, In source sources ->
                  _source_is_valid self source = Returned false) ->
  query_sources _source_is_valid apply_format dataframe_query
                table_from_pandas self sources
  = (self, Returned None).
Proof.
  intros H. unfold query_sources.
  now rewrite (valid_sources_none self sources H).
Qed.

End CatalogClaims.

Lemma query_sources_no_valid_source_witness :
  let self := mkCatalog ["Crab"; "Vela"]%string (Some ["Crab"]%string) in
  query_sources Scenario.no_valid_source
                (fun _ (t : list string) => Returned t)
                (fun df _ => Returned df)
                (fun df => Returned df)
                self ["Geminga"; "Crab"]%string
  = (self, Returned None).
Proof.
  cbn zeta.
  refine (query_sources_no_valid_source (list string) (list string)
            Scenario.no_valid_source _ _ _ _ _ _).
  intros source _. reflexivity.
Defined.


(** * Further properties of the code *)

(** ** Polynomial: evaluation, integral and error propagation *)

Section PolynomialFacts.

Lemma list_tabulate (c : list R) :
  c = map (fun i => nth i c 0%R) (seq 0 (length c)).
Proof.
  induction c as [| a c IH]; [reflexivity |].
  cbn [length seq map nth]. f_equal.
  rewrite <- seq_shift, map_map. exact IH.
Qed.

(** X1.  Calling a Polynomial at x gives the sum of c_i * x^i over its
    coefficients, whatever way the object was reached. *)
Theorem call_is_power_sum (p : Polynomial) (x : R) :
  Poly.__call__ p x
  = Np.sum (map (fun i => nth i (_coefficients p) 0 * x ^ i)%R
                (seq 0 (length (_coefficients p)))).
Proof.
  rewrite call_horner, horner_monomials.
  rewrite (list_tabulate (_coefficients p)) at 1.
  apply monomials_tabulate.
Qed.

(** X2.  With floats read as real numbers (exact arithmetic: in doubles
    the sum of two integrals can differ from the integral over the joined
    interval by rounding), on an object that has an integral polynomial
    integral is additive over adjacent intervals, changes sign when the
    bounds are swapped, and is 0 over an interval of width 0. *)
Theorem integral_additive (p : Polynomial) (a b c : R) :
  _integral_polynomial p <> None ->
  exists Iab Ibc,
    Poly.integral p a b = Returned Iab
    /\ Poly.integral p b c = Returned Ibc
    /\ Poly.integral p a c = Returned (Iab + Ibc)%R
    /\ Poly.integral p b a = Returned (- Iab)%R
    /\ Poly.integral p a a = Returned 0%R.
Proof.
  intros Hip. unfold Poly.integral.
  destruct (_integral_polynomial p) as [ip |]; [| contradiction].
  do 2 eexists. repeat split; f_equal; ring.
Qed.

Lemma integral_additive_witness :
  let p := with_integral_polynomial
             (plain [1; 2]%R) (plain (Spec.F_coefficients [1; 2]%R)) in
  exists Iab Ibc,
    Poly.integral p 0 1 = Returned Iab
    /\ Poly.integral p 1 3 = Returned Ibc
    /\ Poly.integral p 0 3 = Returned (Iab + Ibc)%R
    /\ Poly.integral p 1 0 = Returned (- Iab)%R
    /\ Poly.integral p 0 0 = Returned 0%R.
Proof.
  cbn zeta.
  refine (integral_additive _ 0 1 3 _). cbn. discriminate.
Defined.

(** integral needs the integral polynomial: on an object constructed
    with is_integral=True, and so on the integral polynomial of any
    constructed object, it raises AttributeError. *)
Lemma integral_of_integral_polynomial_raises (c : list R) (a b : R) :
  (exists q, Poly.__init__ c true = Returned q
             /\ Poly.integral q a b = Raised AttributeError)
  /\ (exists p q, Poly.__init__ c false = Returned p
                  /\ _integral_polynomial p = Some q
                  /\ Poly.integral q a b = Raised AttributeError).
Proof.
  split.
  - exists (plain c). now rewrite Polynomial_init_integral.
  - do 2 eexists. rewrite Polynomial_init_plain.
    split; [reflexivity |]. split; reflexivity.
Qed.


(** The value of integral_error on an object with a covariance of the
    right shape. *)
Lemma integral_error_value (p : Polynomial) (xmin xmax : R) :
  constructed p ->
  Spec.square (Z.to_nat (_degree p + 1)) (_cov_matrix p) ->
  Poly.integral_error p xmin xmax
  = Returned (sqrt (Spec.quadratic_form
                      (Spec.basis (_degree p) xmin xmax)
                      (_cov_matrix p))).
Proof.
  intros Hp Hsq. unfold Poly.integral_error.
  rewrite (eval_basis_difference p xmin xmax Hp).
  rewrite <- (basis_length (_degree p) xmin xmax) in Hsq.
  pose proof (dot_dot_quadratic_form _ _ Hsq) as Hdot.
  cbn [bind outcome_monad] in *.
  destruct (Np.dot_vm _ _) as [tmp |]; [| discriminate].
  now rewrite Hdot.
Qed.

Lemma quadratic_form_zero_matrix (c : vector) (m : matrix) :
  (forall i j, nth j (nth i m []) 0%R = 0%R) ->
  Spec.quadratic_form c m = 0%R.
Proof.
  intros Hm. unfold Spec.quadratic_form.
  rewrite <- (sum_zero nat (seq 0 (length c))) at 1.
  apply sum_ext. intros i _.
  rewrite <- (sum_zero nat (seq 0 (length c))) at 1.
  apply sum_ext. intros j _. rewrite Hm. ring.
Qed.

Lemma quadratic_form_zero_vector (c : vector) (m : matrix) :
  (forall i, nth i c 0%R = 0%R) ->
  Spec.quadratic_form c m = 0%R.
Proof.
  intros Hc. unfold Spec.quadratic_form.
  rewrite <- (sum_zero nat (seq 0 (length c))) at 1.
  apply sum_ext. intros i _.
  rewrite <- (sum_zero nat (seq 0 (length c))) at 1.
  apply sum_ext. intros j _. rewrite (Hc i). ring.
Qed.

Lemma zeros_entry (n m : Z) (i j : nat) :
  nth j (nth i (Np.zeros n m) []) 0%R = 0%R.
Proof.
  unfold Np.zeros.
  destruct (nth_in_or_default i (repeat (repeat 0%R (Z.to_nat m))
                                        (Z.to_nat n)) []) as [Hin | ->].
  - apply repeat_spec in Hin. rewrite Hin.
    destruct (nth_in_or_default j (repeat 0%R (Z.to_nat m)) 0%R)
      as [Hin' | ->]; [| reflexivity].
    now apply repeat_spec in Hin'.
  - now destruct j.
Qed.

Lemma zeros_square (n : Z) :
  Spec.square (Z.to_nat n) (Np.zeros n n).
Proof.
  unfold Np.zeros. split.
  - apply repeat_length.
  - apply Forall_forall. intros r Hr. apply repeat_spec in Hr.
    rewrite Hr. apply repeat_length.
Qed.

(** X3.  A Polynomial as the constructor leaves it has the zero covariance
    matrix, and its integral_error is 0 over every interval. *)
Theorem integral_error_fresh (c : list R) (is_integral : bool)
        (xmin xmax : R) :
  exists p,
    Poly.__init__ c is_integral = Returned p
    /\ Poly.covariance_matrix p
       = Np.zeros (Z.of_nat (length c)) (Z.of_nat (length c))
    /\ Poly.integral_error p xmin xmax = Returned 0%R.
Proof.
  assert (Hfresh : forall p,
             Poly.__init__ c is_integral = Returned p ->
             _degree p = (Z.of_nat (length c) - 1)%Z
             /\ _cov_matrix p
                = Np.zeros (Z.of_nat (length c)) (Z.of_nat (length c))).
  { intros p Hp. destruct is_integral.
    - rewrite Polynomial_init_integral in Hp. injection Hp as <-.
      cbn [plain _degree _cov_matrix]. split; [reflexivity |].
      f_equal; lia.
    - rewrite Polynomial_init_plain in Hp. injection Hp as <-.
      cbn [plain with_integral_polynomial _degree _cov_matrix].
      split; [reflexivity |]. f_equal; lia. }
  destruct (Polynomial_init_returns c is_integral) as (p & Hp & _ & _).
  destruct (Hfresh p Hp) as [Hdeg Hcov].
  exists p. split; [exact Hp | split; [exact Hcov |]].
  rewrite integral_error_value.
  - rewrite Hcov, quadratic_form_zero_matrix by (intros; apply zeros_entry).
    now rewrite sqrt_0.
  - exact (constructed_init c is_integral p Hp).
  - rewrite Hcov, Hdeg.
    replace (Z.of_nat (length c) - 1 + 1)%Z with (Z.of_nat (length c)) by lia.
    apply zeros_square.
Qed.

Lemma map2_minus_swap (u v : vector) :
  Np.map2 Rminus u v = map Ropp (Np.map2 Rminus v u).
Proof.
  revert v. induction u as [| a u IH]; intros [| b v]; cbn;
    try reflexivity.
  rewrite IH. f_equal. ring.
Qed.

Lemma sum_map2_opp_l (u v : vector) :
  Np.sum (Np.map2 Rmult (map Ropp u) v) = (- Np.sum (Np.map2 Rmult u v))%R.
Proof.
  revert v. induction u as [| a u IH]; intros [| b v]; cbn [map Np.map2];
    rewrite ?sum_nil, ?sum_cons; try ring.
  rewrite IH. ring.
Qed.

Lemma sum_map2_opp_r (u v : vector) :
  Np.sum (Np.map2 Rmult u (map Ropp v)) = (- Np.sum (Np.map2 Rmult u v))%R.
Proof.
  revert v. induction u as [| a u IH]; intros [| b v]; cbn [map Np.map2];
    rewrite ?sum_nil, ?sum_cons; try ring.
  rewrite IH. ring.
Qed.

Lemma dot_vm_opp (c : vector) (m : matrix) :
  Np.dot_vm (map Ropp c) m
  = match Np.dot_vm c m with
    | Returned tmp => Returned (map Ropp tmp)
    | Raised e => Raised e
    end.
Proof.
  unfold Np.dot_vm. rewrite length_map.
  destruct (Nat.eqb (length c) (length m) && Np.rectangular m);
    [| reflexivity].
  f_equal. rewrite map_map. apply map_ext. intros j.
  apply sum_map2_opp_l.
Qed.

Lemma dot_vv_opp (u v : vector) :
  Np.dot_vv (map Ropp u) (map Ropp v) = Np.dot_vv u v.
Proof.
  unfold Np.dot_vv. rewrite !length_map.
  destruct (Nat.eqb (length u) (length v)); [| reflexivity].
  f_equal. rewrite sum_map2_opp_l, sum_map2_opp_r. ring.
Qed.

(** X4.  integral_error does not depend on the order of the two bounds:
    for every object and covariance matrix, integral_error(a, b) and
    integral_error(b, a) end the same way (same value, or the same
    exception when the matrix has the wrong shape). *)
Theorem integral_error_symmetric (p : Polynomial) (a b : R) :
  Poly.integral_error p a b = Poly.integral_error p b a.
Proof.
  unfold Poly.integral_error. cbn zeta.
  rewrite (map2_minus_swap (Poly._eval_basis p b) (Poly._eval_basis p a)).
  rewrite dot_vm_opp. cbn [bind outcome_monad].
  destruct (Np.dot_vm _ _) as [tmp |]; [| reflexivity].
  now rewrite dot_vv_opp.
Qed.

Lemma basis_zero_width (d : Z) (x : R) (i : nat) :
  nth i (Spec.basis d x x) 0%R = 0%R.
Proof.
  unfold Spec.basis.
  destruct (Nat.lt_ge_cases i (Z.to_nat (d + 1))) as [Hi | Hi].
  - rewrite nth_tabulate by assumption. unfold Rdiv. ring.
  - apply nth_overflow. now rewrite length_map, length_seq.
Qed.

(** X5.  Over an interval of width 0 the propagated error is 0, for every
    object whose covariance matrix has shape (degree+1) x (degree+1). *)
Theorem integral_error_zero_width (p : Polynomial) (x : R) :
  constructed p ->
  Spec.square (Z.to_nat (_degree p + 1)) (_cov_matrix p) ->
  Poly.integral_error p x x = Returned 0%R.
Proof.
  intros Hp Hsq. rewrite integral_error_value by assumption.
  rewrite quadratic_form_zero_vector by (intros; apply basis_zero_width).
  now rewrite sqrt_0.
Qed.

Lemma integral_error_zero_width_witness :
  let S := [[4; 1]; [1; 9]]%R in
  let p := Poly.set_covariace_matrix
             (with_integral_polynomial
                (plain [3; 2]%R) (plain (Spec.F_coefficients [3; 2]%R))) S in
  Poly.integral_error p 5 5 = Returned 0%R.
Proof.
  cbn zeta. apply integral_error_zero_width.
  - apply constructed_set_cov.
    exact (constructed_init _ _ _ (Polynomial_init_plain [3; 2]%R)).
  - split; [reflexivity | repeat constructor].
Defined.

End PolynomialFacts.

(** ** Polynomial: the coefficient setter and from_previous_fit *)

Section SetterFacts.

Lemma set_coefficient_cases (p : Polynomial) (v : list R) :
  (exists e, Poly.__set_coefficient p v = (with_coefficients p v, Raised e))
  \/ (exists q, Poly.__set_coefficient p v
                = (with_integral_polynomial (with_coefficients p v) q,
                   Returned tt)).
Proof.
  unfold Poly.__set_coefficient.
  destruct (Poly.integral_coeff _ _) as [ic | e]; [| left; now exists e].
  destruct (Poly.__init__ ic true) as [q | e].
  - right. now exists q.
  - left. now exists e.
Qed.

Lemma constructed_degree (p : Polynomial) :
  constructed p -> (-1 <= _degree p)%Z.
Proof.
  induction 1 as [c is_integral p Hinit | p m _ IH | p v _ IH].
  - destruct (Polynomial_init_returns c is_integral) as (p' & Hp' & _ & Hd).
    rewrite Hinit in Hp'. injection Hp' as <-. lia.
  - exact IH.
  - destruct (set_coefficient_cases p v) as [[e ->] | [q ->]]; exact IH.
Qed.

(** X6.  Assigning coefficients, whether the setter returns or raises,
    changes neither the degree nor the covariance matrix, and so leaves
    integral_error as it was. *)
Theorem set_coefficient_keeps_error_data (p : Polynomial) (v : list R)
        (a b : R) :
  let p' := fst (Poly.__set_coefficient p v) in
  Poly.degree p' = Poly.degree p
  /\ Poly.covariance_matrix p' = Poly.covariance_matrix p
  /\ Poly.integral_error p' a b = Poly.integral_error p a b.
Proof.
  cbn zeta.
  destruct (set_coefficient_cases p v) as [[e ->] | [q ->]];
    repeat split.
Qed.

(** X7.  After an assignment of v, whether the setter returned or raised,
    the getter gives v and calling the object evaluates v. *)
Theorem call_after_set_coefficient (p : Polynomial) (v : list R) (x : R) :
  let p' := fst (Poly.__set_coefficient p v) in
  Poly.__get_coefficient p' = v
  /\ Poly.__call__ p' x = Spec.horner v x.
Proof.
  cbn zeta. rewrite call_horner.
  destruct (set_coefficient_cases p v) as [[e ->] | [q ->]];
    split; reflexivity.
Qed.

(** X8.  When the assigned vector v has degree+1 entries, the setter
    returns and integral afterwards is that of v: F(xmax) - F(xmin) with F
    the antiderivative of v with constant term 0. *)
Theorem integral_after_set_coefficient (p : Polynomial) (v : list R)
        (xmin xmax : R) :
  Z.of_nat (length v) = (Poly.degree p + 1)%Z ->
  snd (Poly.__set_coefficient p v) = Returned tt
  /\ Poly.integral (fst (Poly.__set_coefficient p v)) xmin xmax
     = Returned (Spec.F v xmax - Spec.F v xmin)%R.
Proof.
  intros Hlen. unfold Poly.degree in Hlen.
  rewrite set_coefficient_same_length by lia.
  split; [reflexivity |]. unfold Poly.integral.
  cbn [fst with_integral_polynomial _integral_polynomial].
  now rewrite !call_F.
Qed.

Lemma integral_after_set_coefficient_witness :
  let p := with_integral_polynomial
             (plain [1; 2]%R) (plain (Spec.F_coefficients [1; 2]%R)) in
  snd (Poly.__set_coefficient p [5; 7]%R) = Returned tt
  /\ Poly.integral (fst (Poly.__set_coefficient p [5; 7]%R)) 0 1
     = Returned (Spec.F [5; 7]%R 1 - Spec.F [5; 7]%R 0)%R.
Proof.
  cbn zeta. apply integral_after_set_coefficient. reflexivity.
Defined.

(** X9.  How the setter ends is decided by the degree fixed at
    construction.  A vector with at least degree+1 entries is accepted, and
    the integral polynomial is built from its first degree+1 entries only;
    a shorter vector raises IndexError, with the coefficients already
    replaced and the integral polynomial left as it was. *)
Theorem set_coefficient_bounds (p : Polynomial) (v : list R) :
  constructed p ->
  ((Poly.degree p + 1 <= Z.of_nat (length v))%Z ->
   Poly.__set_coefficient p v
   = (with_integral_polynomial (with_coefficients p v)
        (plain (Spec.F_coefficients
                  (firstn (Z.to_nat (Poly.degree p + 1)) v))),
      Returned tt))
  /\ ((Z.of_nat (length v) < Poly.degree p + 1)%Z ->
      Poly.__set_coefficient p v
      = (with_coefficients p v, Raised IndexError)
      /\ _integral_polynomial (with_coefficients p v)
         = _integral_polynomial p).
Proof.
  intros Hp. pose proof (constructed_degree p Hp) as Hd.
  unfold Poly.degree. split; intros Hlen.
  - apply set_coefficient_returns. lia.
  - split; [now apply set_coefficient_raises | reflexivity].
Qed.

Lemma set_coefficient_bounds_witness :
  let p := with_integral_polynomial
             (plain [1; 2; 3]%R) (plain (Spec.F_coefficients [1; 2; 3]%R)) in
  Poly.__set_coefficient p [4; 5]%R
  = (with_coefficients p [4; 5]%R, Raised IndexError)
  /\ _integral_polynomial (with_coefficients p [4; 5]%R)
     = _integral_polynomial p.
Proof.
  cbn zeta.
  refine (proj2 (set_coefficient_bounds _ [4; 5]%R
                   (constructed_init _ _ _
                      (Polynomial_init_plain [1; 2; 3]%R))) _).
  cbn. lia.
Defined.

(** X10.  from_previous_fit(c, S) returns for every c and S; the object
    gives back c and S, has degree len(c)-1, and integrates c: it is the
    object Polynomial(c) with the covariance replaced by S. *)
Theorem from_previous_fit_restores (c : list R) (S : matrix) :
  exists p0 p,
    Poly.__init__ c false = Returned p0
    /\ Poly.from_previous_fit c S = Returned p
    /\ p = Poly.set_covariace_matrix p0 S
    /\ Poly.__get_coefficient p = c
    /\ Poly.covariance_matrix p = S
    /\ Poly.degree p = (Z.of_nat (length c) - 1)%Z
    /\ forall xmin xmax,
         Poly.integral p xmin xmax
         = Returned (Spec.F c xmax - Spec.F c xmin)%R.
Proof.
  do 2 eexists. split; [apply Polynomial_init_plain |].
  unfold Poly.from_previous_fit. rewrite Polynomial_init_plain.
  cbn [bind ret outcome_monad].
  split; [reflexivity |]. repeat split.
  intros xmin xmax. unfold Poly.integral.
  cbn [with_cov_matrix with_integral_polynomial _integral_polynomial].
  now rewrite !call_F.
Qed.

End SetterFacts.

(** ** The fit drivers: what they call *)

Section CallCounting.

Variable E : Env.

Lemma count_calls_app (P : call -> bool) (l1 l2 : list call) :
  count_calls P (l1 ++ l2) = count_calls P l1 + count_calls P l2.
Proof. unfold count_calls. now rewrite filter_app, length_app. Qed.

Lemma spends_weaken (B : Type) (P : call -> bool) (n n' : nat)
      (m : M E B) :
  n <= n' -> spends P n m -> spends P n' m.
Proof.
  intros Hn Hm s. destruct (Hm s) as (l & Hl & Hc).
  exists l. split; [exact Hl | lia].
Qed.

Lemma spends_ret (A : Type) (P : call -> bool) (a : A) :
  spends P 0 (ret (M := M E) a).
Proof. intros s. exists []. cbn. now rewrite app_nil_r. Qed.

Lemma spends_lift (A : Type) (P : call -> bool) (o : outcome A) :
  spends P 0 (lift E o).
Proof. intros s. exists []. cbn. now rewrite app_nil_r. Qed.

Lemma spends_perform (P : call -> bool) (c : call) :
  spends P (if P c then 1 else 0) (perform E c).
Proof.
  intros s. exists [c]. rewrite perform_run. cbn [fst log].
  split; [reflexivity |]. unfold count_calls. cbn.
  destruct (P c); cbn; lia.
Qed.

Lemma spends_perform_other (P : call -> bool) (c : call) :
  P c = false -> spends P 0 (perform E c).
Proof.
  intros H. pose proof (spends_perform P c) as Hp. now rewrite H in Hp.
Qed.

Lemma spends_bind (A B : Type) (P : call -> bool) (n1 n2 : nat)
      (m : M E A) (k : A -> M E B) :
  spends P n1 m -> (forall a, spends P n2 (k a)) ->
  spends P (n1 + n2) (bind m k).
Proof.
  intros Hm Hk s. destruct (Hm s) as (l1 & H1 & C1).
  cbn [bind M_monad]. destruct (m s) as [s1 [a | e]]; cbn [fst] in *.
  - destruct (Hk a s1) as (l2 & H2 & C2). exists (l1 ++ l2).
    rewrite H2, H1, app_assoc, count_calls_app. split; [reflexivity | lia].
  - exists l1. split; [exact H1 | lia].
Qed.

Lemma spends_bind_none (A B : Type) (P : call -> bool)
      (m : M E A) (k : A -> M E B) :
  spends P 0 m -> (forall a, spends P 0 (k a)) -> spends P 0 (bind m k).
Proof. intros Hm Hk. exact (spends_bind A B P 0 0 m k Hm Hk). Qed.

Lemma spends_try (A : Type) (P : call -> bool) (n1 n2 : nat)
      (body handler_ : M E A) :
  spends P n1 body -> spends P n2 handler_ ->
  spends P (n1 + n2) (try_except E body handler_).
Proof.
  intros Hb Hh s. destruct (Hb s) as (l1 & H1 & C1).
  unfold try_except. destruct (body s) as [s1 [a | e]]; cbn [fst] in *.
  - exists l1. split; [exact H1 | lia].
  - destruct (Hh s1) as (l2 & H2 & C2). exists (l1 ++ l2).
    rewrite H2, H1, app_assoc, count_calls_app. split; [reflexivity | lia].
Qed.

Lemma spends_try_none (A : Type) (P : call -> bool) (body handler_ : M E A) :
  spends P 0 body -> spends P 0 handler_ ->
  spends P 0 (try_except E body handler_).
Proof. intros Hb Hh. exact (spends_try A P 0 0 body handler_ Hb Hh). Qed.

(** A block that makes no call of the kind, before and after a block that
    makes at most [n]. *)
Lemma spends_bind_before (A B : Type) (P : call -> bool) (n : nat)
      (m : M E A) (k : A -> M E B) :
  spends P 0 m -> (forall a, spends P n (k a)) -> spends P n (bind m k).
Proof. intros Hm Hk. exact (spends_bind A B P 0 n m k Hm Hk). Qed.

Lemma spends_bind_after (A B : Type) (P : call -> bool) (n : nat)
      (m : M E A) (k : A -> M E B) :
  spends P n m -> (forall a, spends P 0 (k a)) -> spends P n (bind m k).
Proof.
  intros Hm Hk. apply (spends_weaken B P (n + 0) n); [lia |].
  exact (spends_bind A B P n 0 m k Hm Hk).
Qed.

Lemma spends_for_enumerate (A : Type) (P : call -> bool) (l : list A)
      (body : nat -> A -> M E unit) (i : nat) :
  (forall j a, spends P 0 (body j a)) ->
  spends P 0 (for_enumerate E i l body).
Proof.
  intros Hbody. revert i. induction l as [| a l IH]; intros i;
    cbn [for_enumerate].
  - apply spends_ret.
  - apply spends_bind_none; [apply Hbody | intros _; apply IH].
Qed.

Lemma spends_for_list (A B : Type) (P : call -> bool) (l : list A)
      (f : A -> M E B) :
  (forall a, spends P 0 (f a)) -> spends P 0 (for_list E f l).
Proof.
  intros Hf. induction l as [| a l IH]; cbn [for_list].
  - apply spends_ret.
  - apply spends_bind_none; [apply Hf | intros b].
    apply spends_bind_none; [apply IH | intros bs; apply spends_ret].
Qed.

End CallCounting.

(** One step of a proof that a block makes no call of a kind. *)
Ltac spend_step :=
  first
    [ apply spends_bind_none; [| intros ?]
    | match goal with
      | |- spends ?P _ (perform ?E ?c) =>
          exact (spends_perform_other E P c eq_refl)
      end
    | apply spends_ret
    | apply spends_lift
    | apply spends_try_none
    | apply spends_for_enumerate; intros ? ?
    | apply spends_for_list; intros ?
    | match goal with
      | |- spends _ _ (if ?b then _ else _) => destruct b
      | |- spends _ _ (let (_, _) := ?x in _) => destruct x
      end ].

Ltac spend_none :=
  unfold fix_linear_term, read_coefficients, zero_polynomial;
  repeat spend_step.

Section DriverCalls.

Variable E : Env.


Lemma spends_unique (A : Type) (m : M E A) (s : state E) (l l' : list call) :
  log (fst (m s)) = log s ++ l -> log (fst (m s)) = log s ++ l' -> l = l'.
Proof. intros H H'. rewrite H in H'. now apply app_inv_head in H'. Qed.

(** The two nested try blocks: at most two calls of fit. *)
Lemma fit_with_retry_spends_fit : spends is_fit 2 (fit_with_retry E).
Proof.
  unfold fit_with_retry.
  apply (spends_try E unit is_fit 1 1);
    [exact (spends_perform E is_fit (Fit true)) |].
  apply (spends_try E unit is_fit 1 0);
    [exact (spends_perform E is_fit (Fit true)) |].
  apply spends_ret.
Qed.

Lemma fit_with_retry_spends_other (P : call -> bool) :
  P (Fit true) = false -> spends P 0 (fit_with_retry E).
Proof.
  intros H. unfold fit_with_retry.
  apply (spends_try E unit P 0 0);
    [exact (spends_perform_other E P (Fit true) H) |].
  apply (spends_try E unit P 0 0);
    [exact (spends_perform_other E P (Fit true) H) |].
  apply spends_ret.
Qed.

Lemma polyfit_mle_spends_fit (grade : Z) (avg : float) :
  spends is_fit 2 (polyfit_mle E grade avg).
Proof.
  unfold polyfit_mle.
  apply (spends_bind E _ _ is_fit 0 2).
  { unfold polyfit_mle_setup. spend_none. }
  intros _. apply (spends_bind E _ _ is_fit 2 0).
  { apply fit_with_retry_spends_fit. }
  intros _. unfold polyfit_mle_collect. spend_none.
Qed.

End DriverCalls.

(** A block of a driver makes no call of the kind at hand. *)
Ltac spend_driver :=
  unfold polyfit_mle, polyfit_mle_setup, polyfit_mle_collect, polyfit_bayes,
    unbinned_polyfit_mle, unbinned_polyfit_bayes;
  unfold fix_linear_term, read_coefficients, zero_polynomial;
  repeat first [ apply fit_with_retry_spends_other; reflexivity
               | spend_step ].

Section DriverModes.

Variable E : Env.

Lemma polyfit_mle_no_sampler (grade : Z) (avg : float) :
  spends sampler_call 0 (polyfit_mle E grade avg).
Proof. spend_driver. Qed.

Lemma polyfit_mle_quiet (grade : Z) (avg : float) :
  spends is_loud 0 (polyfit_mle E grade avg).
Proof. spend_driver. Qed.


Lemma polyfit_bayes_no_optimizer (grade : Z) (avg : float) :
  spends optimizer_call 0 (polyfit_bayes E grade avg).
Proof. spend_driver. Qed.

Lemma polyfit_bayes_no_fit (grade : Z) (avg : float) :
  spends is_fit 0 (polyfit_bayes E grade avg).
Proof. spend_driver. Qed.

Lemma polyfit_bayes_quiet (grade : Z) (avg : float) :
  spends is_loud 0 (polyfit_bayes E grade avg).
Proof. spend_driver. Qed.


End DriverModes.

Section DriverTotals.

Variable E : Env.

Lemma unbinned_polyfit_mle_spends_fit (grade : Z) :
  spends is_fit 2 (unbinned_polyfit_mle E grade).
Proof.
  unfold unbinned_polyfit_mle.
  repeat (apply spends_bind_before; [solve [spend_none] | intros ?]).
  apply spends_bind_after.
  - apply (spends_try E bool is_fit 1 1).
    + apply spends_bind_after; [| intros ?; apply spends_ret].
      exact (spends_perform E is_fit (Fit true)).
    + apply (spends_try E bool is_fit 1 0); [| apply spends_ret].
      apply spends_bind_after; [| intros ?; apply spends_ret].
      exact (spends_perform E is_fit (Fit true)).
  - intros fitted. spend_none.
Qed.

Lemma unbinned_polyfit_mle_no_sampler (grade : Z) :
  spends sampler_call 0 (unbinned_polyfit_mle E grade).
Proof. spend_driver. Qed.

Lemma unbinned_polyfit_mle_quiet (grade : Z) :
  spends is_loud 0 (unbinned_polyfit_mle E grade).
Proof. spend_driver. Qed.


Lemma unbinned_polyfit_bayes_no_optimizer (grade : Z) :
  spends optimizer_call 0 (unbinned_polyfit_bayes E grade).
Proof. spend_driver. Qed.

Lemma unbinned_polyfit_bayes_no_fit (grade : Z) :
  spends is_fit 0 (unbinned_polyfit_bayes E grade).
Proof. spend_driver. Qed.

Lemma unbinned_polyfit_bayes_quiet (grade : Z) :
  spends is_loud 0 (unbinned_polyfit_bayes E grade).
Proof. spend_driver. Qed.


Lemma polyfit_spends (P : call -> bool) (n : nat) (x y exposure : list float)
      (grade : Z) (bayes : bool) :
  not_a_constructor P ->
  (forall avg, spends P n (if negb bayes
                           then polyfit_mle E grade avg
                           else polyfit_bayes E grade avg)) ->
  spends P n (polyfit E x y grade exposure bayes).
Proof.
  intros (HS & HP & HM & HX & _ & _) Hbranch. unfold polyfit. cbn zeta.
  do 3 (apply spends_bind_before; [apply spends_lift | intros ?]).
  destruct (Nat.eqb _ 0).
  { apply (spends_weaken E _ P 0 n); [lia |]. spend_none. }
  apply spends_bind_before; [apply spends_lift | intros family].
  apply spends_bind_before;
    [exact (spends_perform_other E P _ (HS family)) | intros _].
  apply spends_bind_before;
    [exact (spends_perform_other E P _ (HP _)) | intros _].
  apply spends_bind_before;
    [exact (spends_perform_other E P _ HM) | intros _].
  apply spends_bind_before;
    [exact (spends_perform_other E P _ (HX _ _ _)) | intros _].
  apply spends_bind_after; [apply Hbranch |].
  intros [final_polynomial min_log_likelihood]. apply spends_ret.
Qed.

Lemma unbinned_polyfit_spends (P : call -> bool) (n : nat)
      (events : list float) (grade : Z) (t_start t_stop exposure : float)
      (bayes : bool) :
  not_a_constructor P ->
  spends P n (if negb bayes
              then unbinned_polyfit_mle E grade
              else unbinned_polyfit_bayes E grade) ->
  spends P n (unbinned_polyfit E events grade t_start t_stop exposure bayes).
Proof.
  intros (HS & HP & HM & _ & HO & HU) Hbranch. unfold unbinned_polyfit.
  destruct (Nat.eqb _ 0).
  { apply (spends_weaken E _ P 0 n); [lia |]. spend_none. }
  apply spends_bind_before; [apply spends_lift | intros family].
  apply spends_bind_before;
    [exact (spends_perform_other E P _ (HS family)) | intros _].
  apply spends_bind_before;
    [exact (spends_perform_other E P _ (HP _)) | intros _].
  apply spends_bind_before;
    [exact (spends_perform_other E P _ HM) | intros _].
  apply spends_bind_before;
    [exact (spends_perform_other E P _ (HO _ _ _ _)) | intros _].
  apply spends_bind_before;
    [exact (spends_perform_other E P _ HU) | intros _].
  exact Hbranch.
Qed.

End DriverTotals.

Section DriverCallTheorems.

Variable E : Env.

Lemma not_a_constructor_kinds :
  not_a_constructor is_fit /\ not_a_constructor is_loud
  /\ not_a_constructor optimizer_call /\ not_a_constructor sampler_call
  /\ not_a_constructor fixes_linear_term /\ not_a_constructor runs_fit.
Proof. repeat split. Qed.

Lemma spends_pair (A : Type) (P Q : call -> bool) (n : nat) (m : M E A)
      (s : state E) :
  spends P n m -> spends Q 0 m ->
  exists l, log (fst (m s)) = log s ++ l
            /\ count_calls P l <= n /\ count_calls Q l = 0.
Proof.
  intros HP HQ. destruct (HP s) as (l & Hl & Hc).
  destruct (HQ s) as (l' & Hl' & Hc').
  rewrite (spends_unique E A m s l l' Hl Hl') in *.
  exists l'. repeat split; [assumption | assumption | lia].
Qed.

(** X11.  Whatever the collaborators do, a run of polyfit or of
    unbinned_polyfit only appends to the call log, calls fit at most twice
    in MLE mode and never in Bayesian mode, and every fit or sampling run
    it starts is quiet. *)
Theorem drivers_fit_at_most_twice :
  (forall x y grade exposure bayes s,
      exists l,
        log (fst (polyfit E x y grade exposure bayes s)) = log s ++ l
        /\ count_calls is_fit l <= (if bayes then 0 else 2)
        /\ count_calls is_loud l = 0)
  /\ (forall events grade t_start t_stop exposure bayes s,
         exists l,
           log (fst (unbinned_polyfit E events grade t_start t_stop
                       exposure bayes s))
           = log s ++ l
           /\ count_calls is_fit l <= (if bayes then 0 else 2)
           /\ count_calls is_loud l = 0).
Proof.
  destruct not_a_constructor_kinds as (Hfit & Hloud & _).
  split.
  - intros x y grade exposure bayes s. apply spends_pair.
    + apply polyfit_spends; [exact Hfit |]. intros avg.
      destruct bayes; cbn [negb];
        [apply polyfit_bayes_no_fit | apply polyfit_mle_spends_fit].
    + apply polyfit_spends; [exact Hloud |]. intros avg.
      destruct bayes; cbn [negb];
        [apply polyfit_bayes_quiet | apply polyfit_mle_quiet].
  - intros events grade t_start t_stop exposure bayes s. apply spends_pair.
    + apply unbinned_polyfit_spends; [exact Hfit |].
      destruct bayes; cbn [negb];
        [ apply unbinned_polyfit_bayes_no_fit
        | apply unbinned_polyfit_mle_spends_fit ].
    + apply unbinned_polyfit_spends; [exact Hloud |].
      destruct bayes; cbn [negb];
        [ apply unbinned_polyfit_bayes_quiet
        | apply unbinned_polyfit_mle_quiet ].
Qed.

(** X12.  The two modes do not mix: in MLE mode neither driver sets a
    prior or touches the sampler, in Bayesian mode neither driver touches
    the joint likelihood, a minimizer or its results. *)
Theorem drivers_keep_modes_apart :
  (forall x y grade exposure bayes s,
      exists l,
        log (fst (polyfit E x y grade exposure bayes s)) = log s ++ l
        /\ count_calls (if bayes then optimizer_call else sampler_call) l
           = 0)
  /\ (forall events grade t_start t_stop exposure bayes s,
         exists l,
           log (fst (unbinned_polyfit E events grade t_start t_stop
                       exposure bayes s))
           = log s ++ l
           /\ count_calls (if bayes then optimizer_call else sampler_call) l
              = 0).
Proof.
  destruct not_a_constructor_kinds as (_ & _ & Hopt & Hsam & _).
  split.
  - intros x y grade exposure bayes s.
    assert (H : spends (if bayes then optimizer_call else sampler_call) 0
                  (polyfit E x y grade exposure bayes)).
    { destruct bayes; (apply polyfit_spends; [assumption |]);
        intros avg; cbn [negb];
        [apply polyfit_bayes_no_optimizer | apply polyfit_mle_no_sampler]. }
    destruct (H s) as (l & Hl & Hc). exists l. split; [exact Hl | lia].
  - intros events grade t_start t_stop exposure bayes s.
    assert (H : spends (if bayes then optimizer_call else sampler_call) 0
                  (unbinned_polyfit E events grade t_start t_stop
                     exposure bayes)).
    { destruct bayes; (apply unbinned_polyfit_spends; [assumption |]);
        cbn [negb];
        [ apply unbinned_polyfit_bayes_no_optimizer
        | apply unbinned_polyfit_mle_no_sampler ]. }
    destruct (H s) as (l & Hl & Hc). exists l. split; [exact Hl | lia].
Qed.


End DriverCallTheorems.


(** ** The fit drivers: grade 0 *)

Section GradeZero.

Variable E : Env.

Lemma spends_grows (A : Type) (P : call -> bool) (n : nat) (m : M E A)
      (s s' : state E) (r : outcome A) :
  spends P n m -> m s = (s', r) ->
  exists l, log s' = log s ++ l /\ count_calls P l <= n.
Proof.
  intros Hm Hrun. destruct (Hm s) as (l & Hl & Hc).
  rewrite Hrun in Hl. now exists l.
Qed.

Lemma fixes_first_bind_left (A B : Type) (P : call -> bool) (n : nat)
      (m : M E A) (k : A -> M E B) :
  fixes_first m -> (forall a, spends P n (k a)) -> fixes_first (bind m k).
Proof.
  intros Hm Hk s s' b Hrun. cbn [bind M_monad] in Hrun.
  destruct (m s) as [s1 [a | e]] eqn:Hms; [| discriminate].
  destruct (Hm s s1 a Hms) as (l & Hl & l0 & l1 & -> & Hc).
  destruct (spends_grows B P n (k a) s1 s' _ (Hk a) Hrun) as (l2 & Hl2 & _).
  exists ((l0 ++ [SetShapeB (Fin 0); FixShapeB] ++ l1) ++ l2).
  split; [rewrite Hl2, Hl; now rewrite <- !app_assoc |].
  exists l0, (l1 ++ l2). split; [| exact Hc].
  now rewrite <- !app_assoc.
Qed.

Lemma fixes_first_bind_right (A B : Type) (m : M E A) (k : A -> M E B) :
  spends runs_fit 0 m -> (forall a, fixes_first (k a)) ->
  fixes_first (bind m k).
Proof.
  intros Hm Hk s s' b Hrun. cbn [bind M_monad] in Hrun.
  destruct (m s) as [s1 [a | e]] eqn:Hms; [| discriminate].
  destruct (spends_grows A runs_fit 0 m s s1 _ Hm Hms) as (lm & Hlm & Hcm).
  destruct (Hk a s1 s' b Hrun) as (l & Hl & l0 & l1 & -> & Hc).
  exists (lm ++ l0 ++ [SetShapeB (Fin 0); FixShapeB] ++ l1).
  split; [rewrite Hl, Hlm; now rewrite <- !app_assoc |].
  exists (lm ++ l0), l1. split; [now rewrite <- !app_assoc |].
  rewrite count_calls_app. lia.
Qed.

Lemma fixes_first_fix_linear_term : fixes_first (fix_linear_term E 0).
Proof.
  intros s s' a Hrun. unfold fix_linear_term in Hrun.
  cbn [Z.eqb bind M_monad] in Hrun. rewrite perform_run in Hrun.
  destruct (snd (handler E (SetShapeB (Fin 0)) (world s))); [| discriminate].
  rewrite perform_run in Hrun. cbn [log world] in Hrun.
  injection Hrun as <- _. cbn [log].
  exists [SetShapeB (Fin 0); FixShapeB]. split.
  - now rewrite <- app_assoc.
  - exists [], []. split; reflexivity.
Qed.

Lemma polyfit_mle_fixes_first (avg : float) :
  fixes_first (polyfit_mle E 0 avg).
Proof.
  unfold polyfit_mle, polyfit_mle_setup.
  apply (fixes_first_bind_left _ _ is_loud 0); [| intros _; spend_driver].
  apply fixes_first_bind_right; [spend_none | intros params].
  apply fixes_first_bind_right; [spend_none | intros _].
  apply (fixes_first_bind_left _ _ is_loud 0); [| intros _; spend_none].
  apply fixes_first_fix_linear_term.
Qed.

Lemma polyfit_bayes_fixes_first (avg : float) :
  fixes_first (polyfit_bayes E 0 avg).
Proof.
  unfold polyfit_bayes.
  apply fixes_first_bind_right; [spend_none | intros params].
  apply fixes_first_bind_right; [spend_none | intros _].
  apply (fixes_first_bind_left _ _ is_loud 0); [| intros _; spend_none].
  apply fixes_first_fix_linear_term.
Qed.

Lemma unbinned_polyfit_mle_fixes_first :
  fixes_first (unbinned_polyfit_mle E 0).
Proof.
  unfold unbinned_polyfit_mle.
  apply fixes_first_bind_right; [spend_none | intros params].
  apply fixes_first_bind_right; [spend_none | intros _].
  apply (fixes_first_bind_left _ _ is_loud 0); [| intros _; spend_none].
  apply fixes_first_fix_linear_term.
Qed.

Lemma unbinned_polyfit_bayes_fixes_first :
  fixes_first (unbinned_polyfit_bayes E 0).
Proof.
  unfold unbinned_polyfit_bayes.
  apply fixes_first_bind_right; [spend_none | intros params].
  apply fixes_first_bind_right; [spend_none | intros _].
  apply (fixes_first_bind_left _ _ is_loud 0); [| intros _; spend_none].
  apply fixes_first_fix_linear_term.
Qed.

(** X14.  Grade 0 in polyfit, either mode: a run that returns after
    making any call at all (that is, not through the no-counts shortcut)
    has assigned 0 to the linear term of the shape and fixed it, and has
    done so before the first optimizer or sampler run. *)
Theorem polyfit_grade_zero_fixes_linear_term
        (x y exposure : list float) (bayes : bool) (s s' : state E)
        (fitted : Polynomial * R) :
  polyfit E x y 0 exposure bayes s = (s', Returned fitted) ->
  log s' <> log s ->
  exists l, log s' = log s ++ l /\ fixed_before_fitting l.
Proof.
  unfold polyfit. cbn zeta. intros Hrun Hlog.
  unfold lift at 1 2 3 in Hrun. cbn [bind M_monad] in Hrun.
  destruct (Np.select y _) as [y' |]; [| discriminate].
  destruct (Np.select x _) as [x' |]; [| discriminate].
  destruct (Np.select exposure _) as [exposure' |]; [| discriminate].
  destruct (Nat.eqb _ 0).
  { rewrite zero_polynomial_run in Hrun. cbn [ret M_monad] in Hrun.
    injection Hrun as <- _. contradiction. }
  revert Hrun. generalize s s' fitted.
  change (fixes_first
            (family <- lift E (Py.getitem _grade_model_lookup 0) ;;
             perform E (NewShape family) ;;
             perform E (NewPointSource "_dummy") ;;
             perform E NewModel ;;
             perform E (NewXYLike x' y' exposure') ;;
             fitted <- (if negb bayes
                        then polyfit_mle E 0 (np_mean_ratio E y' exposure')
                        else polyfit_bayes E 0
                               (np_mean_ratio E y' exposure')) ;;
             (let (final_polynomial, min_log_likelihood) := fitted in
              ret (final_polynomial, (- min_log_likelihood)%R)))).
  apply fixes_first_bind_right; [spend_none | intros family].
  do 4 (apply fixes_first_bind_right; [spend_none | intros _]).
  apply (fixes_first_bind_left _ _ is_loud 0); [| intros ?; spend_none].
  destruct bayes; cbn [negb];
    [apply polyfit_bayes_fixes_first | apply polyfit_mle_fixes_first].
Qed.

(** X15.  Grade 0 in unbinned_polyfit, either mode: a run that returns
    after making any call at all (the event list was not empty) has
    assigned 0 to the linear term and fixed it before the first optimizer
    or sampler run. *)
Theorem unbinned_polyfit_grade_zero_fixes_linear_term
        (events : list float) (t_start t_stop exposure : float)
        (bayes : bool) (s s' : state E) (fitted : Polynomial * R) :
  unbinned_polyfit E events 0 t_start t_stop exposure bayes s
  = (s', Returned fitted) ->
  log s' <> log s ->
  exists l, log s' = log s ++ l /\ fixed_before_fitting l.
Proof.
  unfold unbinned_polyfit. intros Hrun Hlog.
  destruct (Nat.eqb _ 0).
  { cbn [bind M_monad] in Hrun. rewrite zero_polynomial_run in Hrun.
    cbn [ret M_monad] in Hrun. injection Hrun as <- _. contradiction. }
  revert Hrun. generalize s s' fitted.
  change (fixes_first
            (family <- lift E (Py.getitem _grade_model_lookup 0) ;;
             perform E (NewShape family) ;;
             perform E (NewPointSource "dummy") ;;
             perform E NewModel ;;
             perform E (NewEventObservation events exposure t_start t_stop) ;;
             perform E NewUnbinnedPoissonLike ;;
             (if negb bayes
              then unbinned_polyfit_mle E 0
              else unbinned_polyfit_bayes E 0))).
  apply fixes_first_bind_right; [spend_none | intros family].
  do 5 (apply fixes_first_bind_right; [spend_none | intros _]).
  destruct bayes; cbn [negb];
    [ apply unbinned_polyfit_bayes_fixes_first
    | apply unbinned_polyfit_mle_fixes_first ].
Qed.

End GradeZero.

(** ** The fit drivers: particular runs *)

Section DriverRuns.

Variable E : Env.

(** X16.  In MLE mode of polyfit, when the set-up has returned and the
    first fit attempt returns, there is no second attempt: exactly one
    call of fit is logged and polyfit goes on to collect the result in the
    state that attempt left. *)
Theorem polyfit_mle_fits_once (grade : Z) (avg : float)
        (s s1 : state E) (w : World E) :
  polyfit_mle_setup E grade avg s = (s1, Returned tt) ->
  handler E (Fit true) (world s1) = (w, Returned tt) ->
  fit_with_retry E s1 = (mkState w (log s1 ++ [Fit true]), Returned tt)
  /\ polyfit_mle E grade avg s
     = polyfit_mle_collect E (mkState w (log s1 ++ [Fit true])).
Proof.
  intros Hsetup Hfit.
  pose proof (fit_with_retry_first E s1 w Hfit) as Hretry.
  split; [exact Hretry |]. unfold polyfit_mle.
  rewrite (bind_returned E _ _ _ _ s s1 tt Hsetup).
  now rewrite (bind_returned E _ _ _ _ s1 _ tt Hretry).
Qed.

(** X30.  In MLE mode of polyfit, when the set-up has returned and the
    first fit attempt raises, fit is called exactly once more, with the
    same argument and in the state the first attempt left, and nothing is
    called in between.  However the second attempt ends, no exception of
    a fit attempt is propagated: the collect block (which starts by
    reading the parameter values) runs in the state the second attempt
    left. *)
Theorem polyfit_mle_retries_after_failure (grade : Z) (avg : float)
        (s s1 : state E) (w : World E) (e : exn) :
  polyfit_mle_setup E grade avg s = (s1, Returned tt) ->
  handler E (Fit true) (world s1) = (w, Raised e) ->
  let s2 := mkState (fst (handler E (Fit true) w))
                    (log s1 ++ [Fit true; Fit true]) in
  fit_with_retry E s1 = (s2, Returned tt)
  /\ polyfit_mle E grade avg s = polyfit_mle_collect E s2.
Proof.
  intros Hsetup Hfit s2.
  pose proof (fit_with_retry_second E s1 w e Hfit) as Hretry.
  split; [exact Hretry |]. unfold polyfit_mle.
  rewrite (bind_returned E _ _ _ _ s s1 tt Hsetup).
  now rewrite (bind_returned E _ _ _ _ s1 s2 tt Hretry).
Qed.

Lemma unbinned_polyfit_mle_split (grade : Z) (s : state E) :
  unbinned_polyfit_mle E grade s
  = (unbinned_polyfit_mle_setup E grade ;;
     fitted <- try_except E (perform E (Fit true) ;; ret true)
                 (try_except E (perform E (Fit true) ;; ret true)
                    (ret false)) ;;
     if fitted : bool then
       coeff <- read_coefficients E ;;
       final_polynomial <- lift E (Poly.__init__ coeff false) ;;
       cov <- perform E ResultsCovarianceMatrix ;;
       let final_polynomial :=
         Poly.set_covariace_matrix final_polynomial cov in
       min_log_likelihood <- perform E GetLogLike ;;
       ret (final_polynomial, (- min_log_likelihood)%R)
     else
       zero <- zero_polynomial E grade ;;
       ret (zero, 0%R)) s.
Proof.
  unfold unbinned_polyfit_mle, unbinned_polyfit_mle_setup.
  cbn [bind M_monad].
  repeat match goal with
         | |- context [perform E ?c ?s0] =>
             is_var s0; destruct (perform E c s0) as [? [? | ?]];
             try reflexivity
         | |- context [for_enumerate E ?i ?l ?b ?s0] =>
             is_var s0; destruct (for_enumerate E i l b s0) as [? [? | ?]];
             try reflexivity
         | |- context [fix_linear_term E ?g ?s0] =>
             is_var s0; destruct (fix_linear_term E g s0) as [? [? | ?]];
             try reflexivity
         end.
Qed.

(** X17.  In MLE mode of unbinned_polyfit, when the set-up has returned
    and both fit attempts raise, the driver returns the zero polynomial of
    grade+1 coefficients with likelihood 0.  Nothing is called after the
    second attempt: neither the parameter values nor the results are
    read. *)
Theorem unbinned_polyfit_mle_gives_up (grade : Z) (s s1 : state E)
        (w w' : World E) (e e' : exn) :
  unbinned_polyfit_mle_setup E grade s = (s1, Returned tt) ->
  handler E (Fit true) (world s1) = (w, Raised e) ->
  handler E (Fit true) w = (w', Raised e') ->
  exists zero,
    Poly.__init__ (Py.replicate 0%R (grade + 1)) false = Returned zero
    /\ unbinned_polyfit_mle E grade s
       = (mkState w' (log s1 ++ [Fit true; Fit true]), Returned (zero, 0%R)).
Proof.
  intros Hsetup Hfit1 Hfit2. eexists.
  split; [apply Polynomial_init_plain |].
  rewrite unbinned_polyfit_mle_split.
  rewrite (bind_returned E _ _ _ _ s s1 tt Hsetup).
  unfold try_except. cbn [bind M_monad].
  rewrite perform_run, Hfit1. cbn [fst snd].
  rewrite perform_run. cbn [world log]. rewrite Hfit2.
  cbn [fst snd ret M_monad]. rewrite zero_polynomial_run.
  now rewrite <- app_assoc.
Qed.

Lemma polyfit_bayes_split (grade : Z) (avg : float) (s : state E) :
  polyfit_bayes E grade avg s
  = (polyfit_bayes_setup E grade avg ;;
     perform E (Sample true) ;;
     perform E RestoreMedianFit ;;
     coeff <- read_coefficients E ;;
     final_polynomial <- lift E (Poly.__init__ coeff false) ;;
     cov <- perform E EstimateCovarianceMatrix ;;
     let final_polynomial := Poly.set_covariace_matrix final_polynomial cov in
     min_log_likelihood <- perform E GetLogLike ;;
     ret (final_polynomial, min_log_likelihood)) s.
Proof.
  unfold polyfit_bayes, polyfit_bayes_setup.
  cbn [bind M_monad].
  repeat match goal with
         | |- context [perform E ?c ?s0] =>
             is_var s0; destruct (perform E c s0) as [? [? | ?]];
             try reflexivity
         | |- context [for_enumerate E ?i ?l ?b ?s0] =>
             is_var s0; destruct (for_enumerate E i l b s0) as [? [? | ?]];
             try reflexivity
         | |- context [fix_linear_term E ?g ?s0] =>
             is_var s0; destruct (fix_linear_term E g s0) as [? [? | ?]];
             try reflexivity
         end.
Qed.

(** X18.  Bayesian mode of polyfit has no retry: when the set-up has
    returned and the sampler raises, that exception reaches the caller
    after the single sampling call, and nothing is called after it. *)
Theorem polyfit_bayes_sampler_failure (grade : Z) (avg : float)
        (s s1 : state E) (w : World E) (e : exn) :
  polyfit_bayes_setup E grade avg s = (s1, Returned tt) ->
  handler E (Sample true) (world s1) = (w, Raised e) ->
  polyfit_bayes E grade avg s
  = (mkState w (log s1 ++ [Sample true]), Raised e).
Proof.
  intros Hsetup Hsample. rewrite polyfit_bayes_split.
  rewrite (bind_returned E _ _ _ _ s s1 tt Hsetup).
  cbn [bind M_monad]. rewrite perform_run, Hsample. reflexivity.
Qed.

Lemma getitem_out_of_range (A : Type) (l : list A) (i : Z) :
  (i < - Z.of_nat (length l) \/ Z.of_nat (length l) <= i)%Z ->
  Py.getitem l i = Raised IndexError.
Proof.
  intros Hi. unfold Py.getitem.
  destruct (Z.ltb_spec i 0).
  - destruct (Z.leb_spec 0 (i + Z.of_nat (length l))); [lia | reflexivity].
  - destruct (Z.ltb_spec i (Z.of_nat (length l))); [lia |].
    now rewrite andb_false_r.
Qed.

Lemma count_true_some (l : list float) :
  Exists (fun v => Np.positive v = true) l ->
  Nat.eqb (Np.count_true (map Np.positive l)) 0 = false.
Proof.
  unfold Np.count_true. induction 1 as [v l Hv | v l _ IH]; cbn.
  - now rewrite Hv.
  - destruct (Np.positive v); [reflexivity | exact IH].
Qed.

(** X19.  polyfit on data with counts and a grade outside -5 .. 4 raises
    IndexError from the shape table, in either mode, before anything is
    constructed: state and call log are unchanged. *)
Theorem polyfit_grade_out_of_range (x y exposure : list float) (grade : Z)
        (bayes : bool) (s : state E) :
  length x = length y ->
  length exposure = length y ->
  Exists (fun v => Np.positive v = true)
         (filter (fun v => negb (Np.isnan v)) y) ->
  (grade < -5 \/ 5 <= grade)%Z ->
  polyfit E x y grade exposure bayes s = (s, Raised IndexError).
Proof.
  intros Hx He Hy Hgrade. unfold polyfit. cbn zeta.
  rewrite !select_same_length by auto.
  unfold lift at 1 2 3. cbn [bind M_monad].
  rewrite keep_filter, (count_true_some _ Hy).
  rewrite getitem_out_of_range by (cbn; lia). reflexivity.
Qed.

(** X20.  unbinned_polyfit on a non-empty event list and a grade outside
    -5 .. 4 raises IndexError from the shape table, in either mode, with
    state and call log unchanged. *)
Theorem unbinned_polyfit_grade_out_of_range (events : list float)
        (grade : Z) (t_start t_stop exposure : float) (bayes : bool)
        (s : state E) :
  events <> [] ->
  (grade < -5 \/ 5 <= grade)%Z ->
  unbinned_polyfit E events grade t_start t_stop exposure bayes s
  = (s, Raised IndexError).
Proof.
  intros Hev Hgrade. unfold unbinned_polyfit.
  destruct events as [| ev events]; [contradiction |].
  cbn [length Nat.eqb].
  rewrite getitem_out_of_range by (cbn; lia). reflexivity.
Qed.

End DriverRuns.

Section DriverWitnesses.

Lemma polyfit_grade_zero_fixes_linear_term_witness :
  exists s' fitted l,
    polyfit (Scenario.env 0) [Fin 1] [Fin 1] 0 [Fin 1] false
            (Scenario.start 0)
    = (s', Returned fitted)
    /\ log s' = log (Scenario.start 0) ++ l
    /\ fixed_before_fitting l.
Proof.
  assert (Hrun : exists s' fitted,
             polyfit (Scenario.env 0) [Fin 1] [Fin 1] 0 [Fin 1] false
                     (Scenario.start 0)
             = (s', Returned fitted)
             /\ log s' <> log (Scenario.start 0)).
  { do 2 eexists. split.
    - unfold polyfit.
      cbn -[Np.positive Poly.__init__]. rewrite positive_one.
      cbn -[Np.positive Poly.__init__]. rewrite Polynomial_init_plain.
      reflexivity.
    - cbn. discriminate. }
  destruct Hrun as (s' & fitted & Hrun & Hlog).
  destruct (polyfit_grade_zero_fixes_linear_term (Scenario.env 0)
              [Fin 1] [Fin 1] [Fin 1] false (Scenario.start 0) s' fitted
              Hrun Hlog) as (l & Hl & Hfix).
  exists s', fitted, l. repeat split; assumption.
Defined.

Lemma unbinned_polyfit_grade_zero_fixes_linear_term_witness :
  exists s' fitted l,
    unbinned_polyfit (Scenario.env 0) [Fin 1] 0 (Fin 0) (Fin 2) (Fin 2) true
                     (Scenario.start 0)
    = (s', Returned fitted)
    /\ log s' = log (Scenario.start 0) ++ l
    /\ fixed_before_fitting l.
Proof.
  assert (Hrun : exists s' fitted,
             unbinned_polyfit (Scenario.env 0) [Fin 1] 0 (Fin 0) (Fin 2)
                              (Fin 2) true (Scenario.start 0)
             = (s', Returned fitted)
             /\ log s' <> log (Scenario.start 0)).
  { do 2 eexists. split.
    - unfold unbinned_polyfit.
      cbn -[Poly.__init__]. rewrite Polynomial_init_plain. reflexivity.
    - cbn. discriminate. }
  destruct Hrun as (s' & fitted & Hrun & Hlog).
  destruct (unbinned_polyfit_grade_zero_fixes_linear_term (Scenario.env 0)
              [Fin 1] (Fin 0) (Fin 2) (Fin 2) true (Scenario.start 0)
              s' fitted Hrun Hlog) as (l & Hl & Hfix).
  exists s', fitted, l. repeat split; assumption.
Defined.

Lemma polyfit_mle_fits_once_witness :
  let s1 := mkState (E := Scenario.env 0)
              (Scenario.mkWorld 0 None 1 0)
              [FreeParameters; SetBounds "a" (Some (Fin 0)) None;
               SetValue "a" (Fin 1); SetValue "b" (Fin 0);
               NewJointLikelihood; SetMinimizer "minuit"] in
  let s2 := mkState (E := Scenario.env 0)
              (Scenario.mkWorld 1 (Some Scenario.covariance) 1 0)
              (log s1 ++ [Fit true]) in
  fit_with_retry (Scenario.env 0) s1 = (s2, Returned tt)
  /\ polyfit_mle (Scenario.env 0) 1 (Fin 1) (Scenario.start 0)
     = polyfit_mle_collect (Scenario.env 0) s2.
Proof.
  cbn zeta.
  exact (polyfit_mle_fits_once (Scenario.env 0) 1 (Fin 1)
           (Scenario.start 0)
           (mkState (E := Scenario.env 0)
              (Scenario.mkWorld 0 None 1 0)
              [FreeParameters; SetBounds "a" (Some (Fin 0)) None;
               SetValue "a" (Fin 1); SetValue "b" (Fin 0);
               NewJointLikelihood; SetMinimizer "minuit"])
           (Scenario.mkWorld 1 (Some Scenario.covariance) 1 0)
           eq_refl eq_refl).
Defined.

Lemma polyfit_mle_retries_after_failure_witness :
  let s1 := mkState (E := Scenario.env 2)
              (Scenario.mkWorld 0 None 1 0)
              [FreeParameters; SetBounds "a" (Some (Fin 0)) None;
               SetValue "a" (Fin 1); SetValue "b" (Fin 0);
               NewJointLikelihood; SetMinimizer "minuit"] in
  let s2 := mkState (E := Scenario.env 2)
              (Scenario.mkWorld 2 None 1 0)
              (log s1 ++ [Fit true; Fit true]) in
  fit_with_retry (Scenario.env 2) s1 = (s2, Returned tt)
  /\ polyfit_mle (Scenario.env 2) 1 (Fin 1) (Scenario.start 2)
     = polyfit_mle_collect (Scenario.env 2) s2.
Proof.
  cbn zeta.
  exact (polyfit_mle_retries_after_failure (Scenario.env 2) 1 (Fin 1)
           (Scenario.start 2)
           (mkState (E := Scenario.env 2)
              (Scenario.mkWorld 0 None 1 0)
              [FreeParameters; SetBounds "a" (Some (Fin 0)) None;
               SetValue "a" (Fin 1); SetValue "b" (Fin 0);
               NewJointLikelihood; SetMinimizer "minuit"])
           (Scenario.mkWorld 1 None 1 0)
           (ExternalError "FitFailed") eq_refl eq_refl).
Defined.

Lemma unbinned_polyfit_mle_gives_up_witness :
  exists zero,
    Poly.__init__ (Py.replicate 0%R (1 + 1)) false = Returned zero
    /\ unbinned_polyfit_mle (Scenario.env 2) 1 (Scenario.start 2)
       = (mkState (E := Scenario.env 2)
            (Scenario.mkWorld 2 None 10 0)
            ([FreeParameters; SetBounds "a" (Some (Fin 0)) None;
              SetValue "a" (Fin 10); SetValue "b" (Fin 0);
              NewJointLikelihood; NewGlobalMinimization "grid";
              NewLocalMinimization "minuit"; ShapeA;
              GridSetup "a" [Fin 1; Fin 10; Fin 100]; SetGridMinimizer]
             ++ [Fit true; Fit true]),
          Returned (zero, 0%R)).
Proof.
  exact (unbinned_polyfit_mle_gives_up (Scenario.env 2) 1
           (Scenario.start 2)
           (mkState (E := Scenario.env 2)
              (Scenario.mkWorld 0 None 10 0)
              [FreeParameters; SetBounds "a" (Some (Fin 0)) None;
               SetValue "a" (Fin 10); SetValue "b" (Fin 0);
               NewJointLikelihood; NewGlobalMinimization "grid";
               NewLocalMinimization "minuit"; ShapeA;
               GridSetup "a" [Fin 1; Fin 10; Fin 100]; SetGridMinimizer])
           (Scenario.mkWorld 1 None 10 0) (Scenario.mkWorld 2 None 10 0)
           (ExternalError "FitFailed") (ExternalError "FitFailed")
           eq_refl eq_refl eq_refl).
Defined.

Lemma polyfit_grade_out_of_range_witness :
  polyfit (Scenario.env 0) [Fin 1; Fin 2] [Fin 1; NaN] 5 [Fin 1; Fin 1]
          true (Scenario.start 0)
  = (Scenario.start 0, Raised IndexError).
Proof.
  refine (polyfit_grade_out_of_range (Scenario.env 0)
            [Fin 1; Fin 2] [Fin 1; NaN] [Fin 1; Fin 1] 5 true
            (Scenario.start 0) eq_refl eq_refl _ _).
  - cbn. constructor. exact positive_one.
  - right. lia.
Defined.

Lemma unbinned_polyfit_grade_out_of_range_witness :
  unbinned_polyfit (Scenario.env 0) [Fin 1] (-6) (Fin 0) (Fin 2) (Fin 2)
                   false (Scenario.start 0)
  = (Scenario.start 0, Raised IndexError).
Proof.
  refine (unbinned_polyfit_grade_out_of_range (Scenario.env 0)
            [Fin 1] (-6) (Fin 0) (Fin 2) (Fin 2) false
            (Scenario.start 0) _ _).
  - discriminate.
  - left. lia.
Defined.

Lemma polyfit_bayes_sampler_failure_witness :
  polyfit_bayes SamplerDown.env 1 (Fin 1) SamplerDown.start
  = (mkState (E := SamplerDown.env)
       (Scenario.mkWorld 0 None 1 (1 / 100))
       ([FreeParameters; SetBounds "a" (Some (Fin 0)) None;
         SetPrior "a" (Log_normal (Fin 1) (Fin 1)); SetValue "a" (Fin 1);
         SetPrior "b" (Gaussian (Fin 0) (Fin 2));
         SetValue "b" (Fin (1 / 100));
         NewBayesianAnalysis; SetSampler "emcee"; SamplerSetup 500 200 20]
        ++ [Sample true]),
     Raised (ExternalError "SamplerFailed")).
Proof.
  exact (polyfit_bayes_sampler_failure SamplerDown.env 1 (Fin 1)
           SamplerDown.start
           (mkState (E := SamplerDown.env)
              (Scenario.mkWorld 0 None 1 (1 / 100))
              [FreeParameters; SetBounds "a" (Some (Fin 0)) None;
               SetPrior "a" (Log_normal (Fin 1) (Fin 1));
               SetValue "a" (Fin 1);
               SetPrior "b" (Gaussian (Fin 0) (Fin 2));
               SetValue "b" (Fin (1 / 100));
               NewBayesianAnalysis; SetSampler "emcee";
               SamplerSetup 500 200 20])
           (Scenario.mkWorld 0 None 1 (1 / 100))
           (ExternalError "SamplerFailed") eq_refl eq_refl).
Defined.

End DriverWitnesses.

(** ** VirtualObservatoryCatalog: queries, cone searches and their state *)

Section CatalogFacts.

Variable L : VO.Library.

Lemma valid_sources_filter
      (self : VirtualObservatoryCatalog (VO.dataframe L))
      (valid : string -> bool) (sources : list string) :
  (forall source, In source sources ->
                  VO._source_is_valid L self source
                  = Returned (valid source)) ->
  valid_sources (VO._source_is_valid L) self sources
  = Returned (filter valid sources).
Proof.
  induction sources as [| source rest IH]; intros H; [reflexivity |].
  cbn [valid_sources filter]. rewrite (H source (or_introl eq_refl)).
  cbn [bind outcome_monad].
  rewrite IH by (intros x Hx; apply H; now right).
  cbn [bind ret outcome_monad]. now destruct (valid source).
Qed.

(** X21.  query and query_sources change the object only when they return
    a table: a call that raises, or a query_sources that returns None,
    leaves the object (and so the last query results) as it was. *)
Theorem queries_change_state_only_on_success
        (self : VirtualObservatoryCatalog (VO.dataframe L)) :
  (forall q,
      fst (VO.query L self q) = self
      \/ exists out, snd (VO.query L self q) = Returned out)
  /\ (forall sources,
         fst (VO.query_sources_in L self sources) = self
         \/ exists out,
              snd (VO.query_sources_in L self sources) = Returned (Some out)).
Proof.
  split.
  - intros q. unfold VO.query.
    destruct (VO.dataframe_query L _ q) as [qr |]; [| now left].
    destruct (VO.table_from_pandas L qr) as [tbl |]; [| now left].
    destruct (VO.apply_format L self tbl) as [out |]; [| now left].
    right. now exists out.
  - intros sources. unfold VO.query_sources_in, query_sources.
    destruct (valid_sources _ self sources) as [[| first others] |];
      try (now left).
    destruct (VO.dataframe_query L _ _) as [qr |]; [| now left].
    destruct (VO.table_from_pandas L qr) as [tbl |]; [| now left].
    destruct (VO.apply_format L self tbl) as [out |]; [| now left].
    right. now exists out.
Qed.

(** X22.  When query returns a table, the query results are stored and
    the property result gives them back afterwards; the catalog's own data
    frame is not touched. *)
Theorem query_then_result
        (self self' : VirtualObservatoryCatalog (VO.dataframe L))
        (q : string) (out : VO.table L) :
  VO.query L self q = (self', Returned out) ->
  exists query_results,
    VO.dataframe_query L (_vo_dataframe self) q = Returned query_results
    /\ VO.result L self' = Returned query_results
    /\ _vo_dataframe self' = _vo_dataframe self.
Proof.
  unfold VO.query. intros H.
  destruct (VO.dataframe_query L _ q) as [qr |]; [| discriminate].
  destruct (VO.table_from_pandas L qr) as [tbl |]; [| discriminate].
  destruct (VO.apply_format L self tbl) as [out' |]; [| discriminate].
  injection H as <- _. exists qr. repeat split.
Qed.

(** X23.  When the validity check answers for every given name and accepts
    at least one, query_sources is query on the clauses
    (index == "name") of the accepted names, in the order given and joined
    by " | "; the names that are not valid leave no trace. *)
Theorem query_sources_is_query
        (self : VirtualObservatoryCatalog (VO.dataframe L))
        (valid : string -> bool) (sources : list string) :
  (forall source, In source sources ->
                  VO._source_is_valid L self source
                  = Returned (valid source)) ->
  filter valid sources <> [] ->
  VO.query_sources_in L self sources
  = (fst (VO.query L self
            (String.concat " | " (map index_clause (filter valid sources)))),
     out <- snd (VO.query L self
                   (String.concat " | "
                      (map index_clause (filter valid sources)))) ;;
     ret (Some out)).
Proof.
  intros Hvalid Hsome. unfold VO.query_sources_in, query_sources, VO.query.
  rewrite (valid_sources_filter self valid sources Hvalid).
  destruct (filter valid sources) as [| first others]; [contradiction |].
  destruct (VO.dataframe_query L _ _) as [qr |]; [| reflexivity].
  destruct (VO.table_from_pandas L qr) as [tbl |]; [| reflexivity].
  destruct (VO.apply_format L self tbl) as [out |]; reflexivity.
Qed.

(** X24.  In the base class nothing can be asked: the constructor never
    returns (it raises NotImplementedError once the VOS catalog entry is
    made), query_sources raises NotImplementedError on the first name given
    and returns None when given none, and the object is unchanged. *)
Theorem base_class_is_abstract :
  (forall name url description,
      exists e, VO.__init__ (VO.base_class L) name url description
                = Raised e)
  /\ (forall name url description,
         VO.VOSCatalog_create L name url description = Returned tt ->
         VO.__init__ (VO.base_class L) name url description
         = Raised NotImplementedError)
  /\ (forall self source rest,
         VO.query_sources_in (VO.base_class L) self (source :: rest)
         = (self, Raised NotImplementedError))
  /\ (forall self,
         VO.query_sources_in (VO.base_class L) self []
         = (self, Returned None)).
Proof.
  repeat split.
  - intros name url description. unfold VO.__init__. cbn.
    destruct (VO.VOSCatalog_create L name url description) as [[] | e];
      eexists; reflexivity.
  - intros name url description H. unfold VO.__init__. cbn. now rewrite H.
Qed.

(** X25.  A catalog as the constructor leaves it has no last query
    results: result raises AttributeError, and it still does after a
    query_sources call in which no name was valid. *)
Theorem result_before_any_query (name url description : string)
        (self : VO.Catalog L) (sources : list string) :
  VO.__init__ L name url description = Returned self ->
  (forall source, In source sources ->
                  VO._source_is_valid L (VO.this self) source
                  = Returned false) ->
  VO.result L (VO.this self) = Raised AttributeError
  /\ VO.ra_center self = Raised AttributeError
  /\ VO.dec_center self = Raised AttributeError
  /\ VO.result L (fst (VO.query_sources_in L (VO.this self) sources))
     = Raised AttributeError.
Proof.
  unfold VO.__init__. cbn [bind ret outcome_monad]. intros Hinit Hnone.
  destruct (VO.VOSCatalog_create L name url description); [| discriminate].
  destruct (VO._get_vo_table_from_source L) as [df |]; [| discriminate].
  injection Hinit as <-. repeat split.
  unfold VO.query_sources_in, query_sources.
  now rewrite (valid_sources_none _ _ _ _ Hnone).
Qed.

End CatalogFacts.

Section ConeSearchFacts.

Variable L : VO.Library.

Lemma cone_search_success (self self' : VO.Catalog L)
      (ra dec radius : R) (out : VO.table L) :
  VO.cone_search self ra dec radius = (self', Returned (Some out)) ->
  exists df,
    self' = VO.mkObject
              (mkCatalog (_vo_dataframe (VO.this self)) (Some df))
              (Some ra) (Some dec).
Proof.
  unfold VO.cone_search. intros H.
  destruct (VO.SkyCoord L ra dec) as [coord |]; [| discriminate].
  destruct (VO.conesearch L coord radius) as [vot | e].
  - destruct (VO.to_table L vot) as [tbl |]; [| discriminate].
    destruct (VO.to_sorted_frame L tbl) as [df |]; [| discriminate].
    cbn zeta in H.
    destruct (VO.apply_format L _ tbl) as [out' |]; [| discriminate].
    injection H as <- _. now exists df.
  - destruct (VO.is_VOSError e); [| discriminate].
    destruct (VO.exception_message L e); discriminate.
Qed.


(** X27.  cone_search stores the search results before it formats them:
    when the search went through and apply_format raises (as it does in
    the base class), the exception reaches the caller with the last query
    results already replaced, while the centre is not recorded. *)
Theorem cone_search_format_failure (self : VO.Catalog L)
        (ra dec radius : R) (coord : VO.skycoord L) (vot : VO.votable L)
        (tbl : VO.table L) (df : VO.dataframe L) (e : exn) :
  VO.SkyCoord L ra dec = Returned coord ->
  VO.conesearch L coord radius = Returned vot ->
  VO.to_table L vot = Returned tbl ->
  VO.to_sorted_frame L tbl = Returned df ->
  VO.apply_format L (VO.this (VO.with_last_query_results self df)) tbl
  = Raised e ->
  exists self',
    VO.cone_search self ra dec radius = (self', Raised e)
    /\ VO.result L (VO.this self') = Returned df
    /\ VO._ra self' = VO._ra self
    /\ VO._dec self' = VO._dec self.
Proof.
  intros Hc Hs Ht Hf Ha. exists (VO.with_last_query_results self df).
  unfold VO.cone_search. rewrite Hc, Hs, Ht, Hf. cbn zeta. rewrite Ha.
  repeat split.
Qed.

(** X28.  When the cone search service raises, cone_search stores nothing
    and returns no table.  An exception other than VOSError reaches the
    caller as it is.  For a VOSError the handler first reads the message
    of the exception, and when that read raises (AttributeError on
    Python 3, where an exception has no message attribute) it is that
    exception which reaches the caller. *)
Theorem cone_search_service_failure (self : VO.Catalog L)
        (ra dec radius : R) (coord : VO.skycoord L) (e : exn) :
  VO.SkyCoord L ra dec = Returned coord ->
  VO.conesearch L coord radius = Raised e ->
  fst (VO.cone_search self ra dec radius) = self
  /\ (forall out,
         snd (VO.cone_search self ra dec radius) <> Returned (Some out))
  /\ (VO.is_VOSError e = false ->
      snd (VO.cone_search self ra dec radius) = Raised e)
  /\ (forall e',
         VO.is_VOSError e = true ->
         VO.exception_message L e = Raised e' ->
         snd (VO.cone_search self ra dec radius) = Raised e').
Proof.
  intros Hc Hs. unfold VO.cone_search. rewrite Hc, Hs.
  destruct (VO.is_VOSError e).
  - destruct (VO.exception_message L e) as [msg | e1]; cbn [fst snd];
      repeat split; try discriminate.
    intros e' _ He'. now injection He' as ->.
  - cbn [fst snd]. repeat split; discriminate.
Qed.

(** X29.  When search_around_source returns a table, the coordinates it
    returns are those the name resolved to, and they are the centre that
    ra_center and dec_center give afterwards. *)
Theorem search_around_source_center (self self' : VO.Catalog L)
        (source_name : string) (radius ra dec : R) (out : VO.table L) :
  VO.search_around_source self source_name radius
  = (self', Returned (ra, dec, Some out)) ->
  VO.get_icrs_coordinates L source_name = Returned (ra, dec)
  /\ VO.cone_search self ra dec radius = (self', Returned (Some out))
  /\ VO.ra_center self' = Returned ra
  /\ VO.dec_center self' = Returned dec.
Proof.
  unfold VO.search_around_source. intros H.
  destruct (VO.get_icrs_coordinates L source_name) as [[ra' dec'] |];
    [| discriminate].
  destruct (VO.cone_search self ra' dec' radius) as [self1 found] eqn:Hcone.
  destruct found as [tbl |]; [| discriminate].
  cbn [bind ret outcome_monad] in H. injection H as <- <- <- ->.
  split; [reflexivity | split; [exact Hcone |]].
  destruct (cone_search_success self self1 ra' dec' radius out Hcone)
    as (df & ->).
  now split.
Qed.

End ConeSearchFacts.

Section CatalogWitnesses.

Lemma query_then_result_witness :
  exists query_results,
    VO.dataframe_query (VOScenario.library true true)
      ["Crab"; "Vela"]%string "flux > 1"
    = Returned query_results
    /\ VO.result (VOScenario.library true true)
         (mkCatalog ["Crab"; "Vela"]%string (Some ["Crab"; "Vela"]%string))
       = Returned query_results
    /\ ["Crab"; "Vela"]%string = ["Crab"; "Vela"]%string.
Proof.
  exact (query_then_result (VOScenario.library true true)
           (mkCatalog ["Crab"; "Vela"]%string None)
           (mkCatalog ["Crab"; "Vela"]%string (Some ["Crab"; "Vela"]%string))
           "flux > 1" ["Crab"; "Vela"]%string eq_refl).
Defined.

Lemma query_sources_is_query_witness :
  let L := VOScenario.library true true in
  let self := mkCatalog ["Crab"; "Vela"]%string None in
  let valid := fun source =>
                 existsb (String.eqb source) ["Crab"; "Vela"]%string in
  VO.query_sources_in L self ["Geminga"; "Vela"; "Crab"]%string
  = (fst (VO.query L self
            (String.concat " | "
               (map index_clause
                    (filter valid ["Geminga"; "Vela"; "Crab"]%string)))),
     out <- snd (VO.query L self
                   (String.concat " | "
                      (map index_clause
                           (filter valid
                                   ["Geminga"; "Vela"; "Crab"]%string)))) ;;
     ret (Some out)).
Proof.
  cbn zeta.
  refine (query_sources_is_query (VOScenario.library true true)
            (mkCatalog ["Crab"; "Vela"]%string None)
            (fun source => existsb (String.eqb source) ["Crab"; "Vela"]%string)
            ["Geminga"; "Vela"; "Crab"]%string _ _).
  - intros source _. reflexivity.
  - cbn. discriminate.
Defined.

Lemma result_before_any_query_witness :
  let L := VOScenario.library true true in
  let self := VOScenario.fresh true true in
  VO.result L (VO.this self) = Raised AttributeError
  /\ VO.ra_center self = Raised AttributeError
  /\ VO.dec_center self = Raised AttributeError
  /\ VO.result L (fst (VO.query_sources_in L (VO.this self)
                         ["Geminga"]%string))
     = Raised AttributeError.
Proof.
  cbn zeta.
  refine (result_before_any_query (VOScenario.library true true)
            "fermi" "http://example.org/vo" "a catalog"
            (VOScenario.fresh true true) ["Geminga"]%string eq_refl _).
  intros source [<- | []]. reflexivity.
Defined.


Lemma cone_search_format_failure_witness :
  exists self',
    VO.cone_search (VOScenario.fresh true false) 83 22 1
    = (self', Raised NotImplementedError)
    /\ VO.result (VOScenario.library true false) (VO.this self')
       = Returned ["Crab"]%string
    /\ VO._ra self' = None
    /\ VO._dec self' = None.
Proof.
  exact (cone_search_format_failure (VOScenario.library true false)
           (VOScenario.fresh true false) 83 22 1
           (83, 22)%R ["Crab"]%string ["Crab"]%string ["Crab"]%string
           NotImplementedError eq_refl eq_refl eq_refl eq_refl eq_refl).
Defined.

Lemma cone_search_service_failure_witness :
  VO.cone_search (VOScenario.fresh false true) 83 22 1
  = (VOScenario.fresh false true, Raised AttributeError).
Proof.
  destruct (cone_search_service_failure (VOScenario.library false true)
              (VOScenario.fresh false true) 83 22 1 (83, 22)%R
              (ExternalError "VOSError") eq_refl eq_refl)
    as (Hstate & _ & _ & Hraise).
  rewrite (surjective_pairing (VO.cone_search _ _ _ _)).
  rewrite Hstate, (Hraise AttributeError eq_refl eq_refl).
  reflexivity.
Defined.

Lemma search_around_source_center_witness :
  let self' := VO.mkObject (L := VOScenario.library true true)
                 (mkCatalog ["Crab"; "Vela"]%string (Some ["Crab"]%string))
                 (Some 83%R) (Some 22%R) in
  VO.get_icrs_coordinates (VOScenario.library true true) "Crab"
  = Returned (83, 22)%R
  /\ VO.cone_search (VOScenario.fresh true true) 83 22 1
     = (self', Returned (Some ["Crab"]%string))
  /\ VO.ra_center self' = Returned 83%R
  /\ VO.dec_center self' = Returned 22%R.
Proof.
  cbn zeta.
  exact (search_around_source_center (VOScenario.library true true)
           (VOScenario.fresh true true)
           (VO.mkObject (L := VOScenario.library true true)
              (mkCatalog ["Crab"; "Vela"]%string (Some ["Crab"]%string))
              (Some 83%R) (Some 22%R))
           "Crab" 1 83 22 ["Crab"]%string eq_refl).
Defined.

End CatalogWitnesses.
